(** * The code-review backend of [main.py], embedded and verified

    The service has one endpoint with decision logic, [POST /analyze]:
    it builds a prompt, asks a model server for a completion, falls back
    to a pattern scan when that call fails, decodes the answer, formats it
    and optionally writes it to a file.

    The development follows the source file top to bottom.  Python values
    are modelled as the interpreter has them: a [str] is a sequence of
    Unicode code points, a decoded JSON document is a tree of dicts, lists
    and scalars, a dict is an insertion-ordered association list, and an
    exception is an explicit result that the [try]/[except] blocks of the
    source catch exactly where the source catches them. *)

From Stdlib Require Import String Ascii NArith ZArith Bool Lia DecimalString PrimFloat SpecFloat FloatOps
  Sorted List.
Import ListNotations.
Local Open Scope list_scope.
Local Open Scope N_scope.

(** ** Python strings *)

Module Py.

(** A code point, and a Python [str]. *)
Definition char := N.
Definition str := list char.

(** An ASCII literal of the source, as a [str]. *)
Definition lit (s : string) : str := map N_of_ascii (list_ascii_of_string s).

Definition NL : char := 10.
Definition CR : char := 13.
Definition SPACE : char := 32.
Definition QUOTE : char := 34.

Fixpoint str_eqb (a b : str) : bool :=
  match a, b with
  | [], [] => true
  | x :: a', y :: b' => (x =? y) && str_eqb a' b'
  | _, _ => false
  end.

(** [s.startswith(p)]. *)
Fixpoint startswith (p s : str) : bool :=
  match p, s with
  | [], _ => true
  | x :: p', y :: s' => (x =? y) && startswith p' s'
  | _ :: _, [] => false
  end.

(** [sub in s]: [sub] occurs in [s] as a contiguous run. *)
Fixpoint contains (sub s : str) : bool :=
  startswith sub s ||
  match s with
  | [] => false
  | _ :: s' => contains sub s'
  end.

(** [str.isspace] on one code point (CPython's [_PyUnicode_IsWhitespace]). *)
Definition isspace (c : char) : bool :=
  ((9 <=? c) && (c <=? 13)) || ((28 <=? c) && (c <=? 32)) ||
  (c =? 133) || (c =? 160) || (c =? 5760) ||
  ((8192 <=? c) && (c <=? 8202)) ||
  (c =? 8232) || (c =? 8233) || (c =? 8239) || (c =? 8287) || (c =? 12288).

(** A line boundary of [str.splitlines] (CPython's [_PyUnicode_IsLinebreak]). *)
Definition islinebreak (c : char) : bool :=
  ((10 <=? c) && (c <=? 13)) || ((28 <=? c) && (c <=? 30)) ||
  (c =? 133) || (c =? 8232) || (c =? 8233).

Fixpoint lstrip (s : str) : str :=
  match s with
  | [] => []
  | c :: s' => if isspace c then lstrip s' else s
  end.

Definition rstrip (s : str) : str := rev (lstrip (rev s)).

(** [s.strip()] with no argument. *)
Definition strip (s : str) : str := rstrip (lstrip s).

(** [s.split(sep)] for a non-empty [sep]: the scan goes left to right and an
    occurrence of [sep] is consumed whole, so occurrences never overlap.
    [skip] counts the characters of a matched separator still to be passed
    over, [cur] holds the current piece in reverse. *)
Fixpoint split_go (sep : str) (skip : nat) (cur : str) (s : str) : list str :=
  match s with
  | [] => [rev cur]
  | c :: rest =>
      match skip with
      | S k => split_go sep k cur rest
      | O =>
          if startswith sep s
          then rev cur :: split_go sep (pred (length sep)) [] rest
          else split_go sep O (c :: cur) rest
      end
  end.

Definition split (sep s : str) : list str := split_go sep O [] s.

(** [s.replace(old, new)] for a non-empty [old]. *)
Fixpoint replace_go (old new : str) (skip : nat) (s : str) : str :=
  match s with
  | [] => []
  | c :: rest =>
      match skip with
      | S k => replace_go old new k rest
      | O =>
          if startswith old s
          then new ++ replace_go old new (pred (length old)) rest
          else c :: replace_go old new O rest
      end
  end.

Definition replace (old new s : str) : str := replace_go old new O s.

(** [s.splitlines()]: pieces between line boundaries, a carriage return
    followed by a line feed counting as one boundary, and no empty last
    piece after a final boundary. *)
Fixpoint splitlines_go (cur : str) (s : str) : list str :=
  match s with
  | [] => match cur with [] => [] | _ :: _ => [rev cur] end
  | c :: rest =>
      if islinebreak c then
        rev cur ::
        match rest with
        | d :: rest' =>
            if (c =? CR) && (d =? NL) then splitlines_go [] rest'
            else splitlines_go [] rest
        | [] => splitlines_go [] rest
        end
      else splitlines_go (c :: cur) rest
  end.

Definition splitlines (s : str) : list str := splitlines_go [] s.

(** [sep.join(parts)]. *)
Fixpoint join (sep : str) (parts : list str) : str :=
  match parts with
  | [] => []
  | [p] => p
  | p :: ps => p ++ sep ++ join sep ps
  end.

(** [enumerate(xs, start)]. *)
Fixpoint enumerate {A : Type} (start : Z) (xs : list A) : list (Z * A) :=
  match xs with
  | [] => []
  | x :: xs' => (start, x) :: enumerate (start + 1)%Z xs'
  end.

(** [str(n)] for an [int]. *)
Definition str_of_int (z : Z) : str := lit (NilZero.string_of_int (Z.to_int z)).


(** ** Python values and exceptions *)

(** What [json.loads] can return, and what the dict literals of the source
    hold.  A dict keeps its keys in insertion order. *)
#[warnings="-register-all"]
Inductive json : Type :=
| JNull
| JBool (b : bool)
| JInt (z : Z)
| JFloat (f : float)
| JStr (s : str)
| JArr (items : list json)
| JObj (fields : list (str * json)).

Definition dict := list (str * json).

(** The exceptions that can occur on the paths of the source. *)
Inductive exn : Type :=
| TypeError
| AttributeError
| KeyError
| JSONDecodeError
| RequestException
| RenderError
| ValueError
| UnicodeEncodeError
| OSError
| HTTPException (status_code : Z) (detail : str).

Inductive result (A : Type) : Type :=
| Ok (a : A)
| Raise (e : exn).
Arguments Ok {A} a.
Arguments Raise {A} e.

Definition rbind {A B : Type} (r : result A) (k : A -> result B) : result B :=
  match r with
  | Ok a => k a
  | Raise e => Raise e
  end.

(** [for x in xs: acc = body(acc, x)], stopping at the first exception. *)
Fixpoint rfold {A B : Type} (body : B -> A -> result B) (xs : list A) (acc : B) : result B :=
  match xs with
  | [] => Ok acc
  | x :: xs' => rbind (body acc x) (rfold body xs')
  end.

(** [d.get(k)], as an option. *)
Fixpoint dict_get (k : str) (d : dict) : option json :=
  match d with
  | [] => None
  | (k', v) :: d' => if str_eqb k k' then Some v else dict_get k d'
  end.

(** [d[k] = v]: an existing key keeps its place, a new one goes last. *)
Fixpoint dict_set (k : str) (v : json) (d : dict) : dict :=
  match d with
  | [] => [(k, v)]
  | (k', v') :: d' => if str_eqb k k' then (k, v) :: d' else (k', v') :: dict_set k v d'
  end.

(** [d.setdefault(k, v)], as the dict afterwards. *)
Definition dict_setdefault (k : str) (v : json) (d : dict) : dict :=
  match dict_get k d with
  | Some _ => d
  | None => dict_set k v d
  end.

(** [d.get(k)] with Python's [None] for a missing key. *)
Definition get_or_none (k : str) (d : dict) : json :=
  match dict_get k d with
  | Some v => v
  | None => JNull
  end.

(** [v.get(k, dflt)]: only a dict has the method. *)
Definition py_get (v : json) (k : str) (dflt : json) : result json :=
  match v with
  | JObj d => Ok (match dict_get k d with Some x => x | None => dflt end)
  | _ => Raise AttributeError
  end.

(** [v.setdefault(k, dflt)], as the dict afterwards. *)
Definition py_setdefault (v : json) (k : str) (dflt : json) : result dict :=
  match v with
  | JObj d => Ok (dict_setdefault k dflt d)
  | _ => Raise AttributeError
  end.

(** [d[k]]. *)
Definition py_getitem (d : dict) (k : str) : result json :=
  match dict_get k d with
  | Some v => Ok v
  | None => Raise KeyError
  end.

(** [bool(v)]. *)
Definition truthy (v : json) : bool :=
  match v with
  | JNull => false
  | JBool b => b
  | JInt z => negb (z =? 0)%Z
  | JFloat f => negb (PrimFloat.eqb f 0%float)
  | JStr s => match s with [] => false | _ :: _ => true end
  | JArr l => match l with [] => false | _ :: _ => true end
  | JObj d => match d with [] => false | _ :: _ => true end
  end.

(** [for x in v]: the elements of a list, the characters of a string, the
    keys of a dict; anything else is not iterable. *)
Definition py_iter (v : json) : result (list json) :=
  match v with
  | JArr l => Ok l
  | JStr s => Ok (map (fun c => JStr [c]) s)
  | JObj d => Ok (map (fun kv => JStr (fst kv)) d)
  | _ => Raise TypeError
  end.

Section Runtime.

(** [repr] of a float or of a container.  The text depends on the Unicode
    database (which characters are printable) and on the shortest
    round-trip printing of doubles, neither of which the properties below
    rely on, so it is a parameter. *)
Variable py_repr : json -> str.

(** [str(v)], which is what an f-string field produces. *)
Definition py_str (v : json) : str :=
  match v with
  | JNull => lit "None"
  | JBool true => lit "True"
  | JBool false => lit "False"
  | JInt z => str_of_int z
  | JStr s => s
  | JFloat _ | JArr _ | JObj _ => py_repr v
  end.

(** *** [json.dumps] with its default options *)

Definition hexdigit (n : N) : char := if n <? 10 then 48 + n else 87 + n.

Definition hex4 (n : N) : str :=
  [hexdigit ((n / 4096) mod 16); hexdigit ((n / 256) mod 16);
   hexdigit ((n / 16) mod 16); hexdigit (n mod 16)].

Definition BACKSLASH : char := 92.

Definition uescape (n : N) : str := [BACKSLASH; 117] ++ hex4 n.

(** One character of [py_encode_basestring_ascii]. *)
Definition escape_char (c : char) : str :=
  if c =? BACKSLASH then [BACKSLASH; BACKSLASH]
  else if c =? QUOTE then [BACKSLASH; QUOTE]
  else if c =? 8 then [BACKSLASH; 98]
  else if c =? 12 then [BACKSLASH; 102]
  else if c =? 10 then [BACKSLASH; 110]
  else if c =? 13 then [BACKSLASH; 114]
  else if c =? 9 then [BACKSLASH; 116]
  else if (32 <=? c) && (c <=? 126) then [c]
  else if c <? 65536 then uescape c
  else let n := c - 65536 in
       uescape (N.lor 55296 (N.land (N.shiftr n 10) 1023)) ++
       uescape (N.lor 56320 (N.land n 1023)).

Definition encode_string (s : str) : str :=
  [QUOTE] ++ flat_map escape_char s ++ [QUOTE].

Definition encode_float (f : float) : str :=
  if PrimFloat.is_nan f then lit "NaN"
  else if PrimFloat.is_infinity f
       then (if PrimFloat.ltb f 0%float then lit "-Infinity" else lit "Infinity")
       else py_repr (JFloat f).

Fixpoint json_dumps (v : json) : str :=
  match v with
  | JNull => lit "null"
  | JBool true => lit "true"
  | JBool false => lit "false"
  | JInt z => str_of_int z
  | JFloat f => encode_float f
  | JStr s => encode_string s
  | JArr l => lit "[" ++ join (lit ", ") (map json_dumps l) ++ lit "]"
  | JObj d =>
      lit "{" ++
      join (lit ", ")
           (map (fun kv => encode_string (fst kv) ++ lit ": " ++ json_dumps (snd kv)) d) ++
      lit "}"
  end.

End Runtime.

End Py.

Import Py.

(** ** The request and the world around the handler *)

(** [class CodeRequest(BaseModel)]: [language] and [request_pdf] are
    [Optional], so a client may send [null] for either. *)
Record CodeRequest : Type := {
  code : str;
  language : option str;
  request_pdf : option bool
}.

(** What the handler consults outside its own code. *)
Record world : Type := {
  (** [repr] of floats and containers, see [Py.py_str]. *)
  py_repr : json -> str;
  (** [json.loads] on a [str]: [None] when it raises. *)
  json_loads : str -> option json;
  (** The model server: the decoded body of the answer to the POST with this
      prompt, or [None] when [requests.post], [raise_for_status] or
      [response.json] raises (transport error, timeout, status, bad body). *)
  llm_server : str -> option json;
  (** The module-level flag set by the import of the PDF library. *)
  PDF_AVAILABLE : bool;
  (** Whether the calls on the [FPDF] object go through for this text, when
      all its characters are in the font. *)
  fpdf_renders : str -> bool;
  (** Whether a rendering that raises has by then created the file: it
      depends on the library's version whether the text is checked while
      the page is laid out or when the file, already opened, is filled. *)
  fpdf_litters : str -> bool;
  (** Whether [open(path, "w")] succeeds. *)
  can_open : str -> bool;
  (** [tempfile.gettempdir()] and [os.getpid()], both taken to return. *)
  gettempdir : str;
  getpid : Z
}.

(** What a file on disk holds. *)
Inductive file_data : Type :=
| TextFile (text : str)
| PdfFile (rendered_from : str)
| EmptyFile.

(** What the handler does to the outside, in order. *)
Inductive event : Type :=
| RemoteCall (prompt : str)
| HeuristicCall (prompt : str).

Record state : Type := {
  files : list (str * file_data);
  trace : list event
}.

Definition initial : state := {| files := []; trace := [] |}.

(** Stateful code that may raise.  An exception keeps the effects made
    before it, as in Python. *)
Definition M (A : Type) : Type := state -> result A * state.

Definition ret {A : Type} (a : A) : M A := fun st => (Ok a, st).

Definition bind {A B : Type} (m : M A) (k : A -> M B) : M B :=
  fun st =>
    match m st with
    | (Ok a, st') => k a st'
    | (Raise e, st') => (Raise e, st')
    end.

Definition raise {A : Type} (e : exn) : M A := fun st => (Raise e, st).

Definition lift {A : Type} (r : result A) : M A := fun st => (r, st).

(** [try: m  except Exception: handler]. *)
Definition try_except {A : Type} (m : M A) (handler : exn -> M A) : M A :=
  fun st =>
    match m st with
    | (Ok a, st') => (Ok a, st')
    | (Raise e, st') => handler e st'
    end.

Definition emit (e : event) : M unit :=
  fun st => (Ok tt, {| files := files st; trace := trace st ++ [e] |}).

(** The file at [path] now holds [data]. *)
Definition store_file (path : str) (data : file_data) : M unit :=
  fun st => (Ok tt, {| files := (path, data) :: files st; trace := trace st |}).

(** The file at [path]: the last one written there. *)
Fixpoint read_file (path : str) (fs : list (str * file_data)) : option file_data :=
  match fs with
  | [] => None
  | (p, d) :: fs' => if str_eqb path p then Some d else read_file path fs'
  end.

Declare Scope py_scope.
Delimit Scope py_scope with py.
Notation "x <- m ;; k" := (bind m (fun x => k))
  (at level 61, m at next level, right associativity) : py_scope.
Notation "m ;;; k" := (bind m (fun _ => k))
  (at level 61, right associativity) : py_scope.
Notation "x <~ r ;; k" := (rbind r (fun x => k))
  (at level 61, r at next level, right associativity) : py_scope.
Local Open Scope py_scope.

(** ** [build_prompt] *)

Definition TRIPLE_QUOTE : str := [QUOTE; QUOTE; QUOTE].

(** How an f-string renders an [Optional[str]]. *)
Definition format_opt (o : option str) : str :=
  match o with
  | Some s => s
  | None => lit "None"
  end.

Definition build_prompt (code : str) (language : option str) : str :=
  [NL] ++
  lit "You are a senior software engineer and code reviewer. Analyze the " ++
  format_opt language ++
  lit " code and return a JSON object ONLY:" ++ [NL] ++
  lit "- summary, issues, suggestions, automatic_fixes, effort_estimate, docs_updates, metadata." ++ [NL] ++
  lit "CODE:" ++ [NL] ++
  TRIPLE_QUOTE ++ code ++ TRIPLE_QUOTE ++ [NL].

(** ** [simulate_analysis] *)

(** Lines 90-94: the text between the first two triple quotes. *)
Definition extract_code (prompt : str) : str :=
  if contains TRIPLE_QUOTE prompt then
    let parts := split TRIPLE_QUOTE prompt in
    if (2 <=? length parts)%nat then nth 1 parts [] else []
  else [].

(** Line 103: the test on one line. *)
Definition zero_division (line : str) : bool :=
  contains (lit "/ 0") line || contains (lit "/0") (replace (lit " ") [] line).

Definition issue_at (idx : Z) : json :=
  JObj [(lit "line", JInt idx);
        (lit "severity", JStr (lit "high"));
        (lit "title", JStr (lit "ZeroDivisionError possible"));
        (lit "description",
         JStr (lit "Division by zero detected. This will raise an exception at runtime."))].

Definition the_suggestion : json :=
  JStr (lit "Check for division by zero before performing division.").

Definition the_fix : json :=
  JObj [(lit "description", JStr (lit "Add check for zero denominator"));
        (lit "patch",
         JStr (lit "if b != 0:" ++ [NL] ++ lit "    result = a / b" ++ [NL] ++
               lit "else:" ++ [NL] ++ lit "    result = None  # handle error"))].

(** The three lists the loop of lines 102-114 appends to. *)
Record findings : Type := {
  f_issues : list json;
  f_suggestions : list json;
  f_auto_fixes : list json
}.

Definition no_findings : findings :=
  {| f_issues := []; f_suggestions := []; f_auto_fixes := [] |}.

(** One iteration of the loop. *)
Definition scan_line (acc : findings) (numbered : Z * str) : findings :=
  let (idx, line) := numbered in
  if zero_division line then
    {| f_issues := f_issues acc ++ [issue_at idx];
       f_suggestions := f_suggestions acc ++ [the_suggestion];
       f_auto_fixes := f_auto_fixes acc ++ [the_fix] |}
  else acc.

Definition scan (code : str) : findings :=
  fold_left scan_line (enumerate 1 (splitlines code)) no_findings.

Definition SUMMARY_BASE : str := lit "Simulated analysis (LLM not available).".
Definition NO_ISSUES_SENTENCE : str := lit " No obvious runtime errors detected.".

(** The dict [simulated] of lines 119-127. *)
Definition simulated (prompt : str) : dict :=
  let code := extract_code prompt in
  let found := scan code in
  let summary :=
    match f_issues found with
    | [] => SUMMARY_BASE ++ NO_ISSUES_SENTENCE
    | _ :: _ => SUMMARY_BASE
    end in
  [(lit "summary", JStr summary);
   (lit "issues", JArr (f_issues found));
   (lit "suggestions", JArr (f_suggestions found));
   (lit "automatic_fixes", JArr (f_auto_fixes found));
   (lit "effort_estimate", JStr (lit "5-15 minutes"));
   (lit "docs_updates", JArr [JStr (lit "Add README section describing usage.")]);
   (lit "metadata",
    JObj [(lit "language", JStr (lit "python"));
          (lit "analysis_time", JStr (lit "simulated"))])].

Definition simulate_analysis (w : world) (prompt : str) : str :=
  json_dumps (py_repr w) (JObj (simulated prompt)).

(** ** [call_llm] *)

(** [response = requests.post(...); response.raise_for_status();
    data = response.json()]. *)
Definition post_prompt (w : world) (prompt : str) : M json :=
  emit (RemoteCall prompt) ;;;
  match llm_server w prompt with
  | Some data => ret data
  | None => raise RequestException
  end.

(** The value returned is [data.get("completion", "")], which is whatever
    the body holds under that key, or the text of the heuristic. *)
Definition call_llm (w : world) (prompt : str) : M json :=
  try_except
    (data <- post_prompt w prompt ;;
     lift (py_get data (lit "completion") (JStr [])))
    (fun _ =>
       emit (HeuristicCall prompt) ;;;
       ret (JStr (simulate_analysis w prompt))).

(** ** [format_analysis] *)

Definition HDR_SUMMARY : str :=
  lit "### " ++ [0x201a; 0xfa; 0xd6] ++ lit " Summary" ++ [NL].
Definition HDR_ISSUES : str :=
  lit "### " ++ [0x201a; 0xf9; 0xe5] ++ lit " Issues Found" ++ [NL].
Definition HDR_SUGGESTIONS : str :=
  lit "### " ++ [0xf8ff; 0xfc; 0xed; 0xb0] ++ lit " Suggestions" ++ [NL].
Definition HDR_FIXES : str :=
  lit "### " ++ [0xf8ff; 0xfc; 0xf5; 0x2020; 0xd4; 0x220f; 0xe8] ++
  lit " Automatic Fixes" ++ [NL].
Definition HDR_EFFORT : str :=
  lit "### " ++ [0x201a; 0xe8; 0xb1; 0xd4; 0x220f; 0xe8] ++
  lit " Estimated Effort" ++ [NL].
Definition HDR_DOCS : str :=
  lit "### " ++ [0xf8ff; 0xfc; 0xec; 0xd1] ++ lit " Documentation Updates" ++ [NL].

Section Formatter.

Variable w : world.

Let pstr : json -> str := py_str (py_repr w).

(** Lines 137-138, for one numbered element of [analysis["issues"]]. *)
Definition format_issue (output : str) (numbered : Z * json) : result str :=
  let (i, issue) := numbered in
  line <~ py_get issue (lit "line") (JStr (lit "N/A")) ;;
  title <~ py_get issue (lit "title") JNull ;;
  severity <~ py_get issue (lit "severity") JNull ;;
  description <~ py_get issue (lit "description") JNull ;;
  Ok (output ++ str_of_int i ++ lit ". **" ++ pstr title ++ lit "** (line " ++
      pstr line ++ lit ", severity " ++ pstr severity ++ lit "): " ++
      pstr description ++ [NL]).

(** Lines 143 and 155. *)
Definition format_bullet (output : str) (item : json) : result str :=
  Ok (output ++ lit "- " ++ pstr item ++ [NL]).

(** Line 148. *)
Definition format_fix (output : str) (fix_ : json) : result str :=
  description <~ py_get fix_ (lit "description") JNull ;;
  patch <~ py_get fix_ (lit "patch") JNull ;;
  Ok (output ++ lit "**" ++ pstr description ++ lit "**" ++ [NL] ++
      lit "```python" ++ [NL] ++ pstr patch ++ [NL] ++ lit "```" ++ [NL]).

(** [if analysis.get(key): output += header; for x in analysis[key]: ...;
    output += "\n"]. *)
Definition format_list_section {A : Type} (analysis : dict) (key header : str)
    (items_of : list json -> list A) (body : str -> A -> result str)
    (output : str) : result str :=
  if truthy (get_or_none key analysis) then
    value <~ py_getitem analysis key ;;
    items <~ py_iter value ;;
    output <~ rfold body (items_of items) (output ++ header) ;;
    Ok (output ++ [NL])
  else Ok output.

Definition format_analysis (analysis : dict) : result str :=
  let output := [] in
  let output :=
    output ++ HDR_SUMMARY ++
    pstr (match dict_get (lit "summary") analysis with Some v => v | None => JStr [] end) ++
    [NL; NL] in
  output <~ format_list_section analysis (lit "issues") HDR_ISSUES
              (enumerate 1) format_issue output ;;
  output <~ format_list_section analysis (lit "suggestions") HDR_SUGGESTIONS
              (fun l => l) format_bullet output ;;
  output <~ format_list_section analysis (lit "automatic_fixes") HDR_FIXES
              (fun l => l) format_fix output ;;
  output <~ (if truthy (get_or_none (lit "effort_estimate") analysis) then
               value <~ py_getitem analysis (lit "effort_estimate") ;;
               Ok (output ++ HDR_EFFORT ++ pstr value ++ [NL; NL])
             else Ok output) ;;
  output <~ format_list_section analysis (lit "docs_updates") HDR_DOCS
              (fun l => l) format_bullet output ;;
  Ok output.

End Formatter.

(** ** [analyze_code] *)

(** The two responses the handler builds, both with the default status
    200. *)
Inductive response : Type :=
| JSONResponse (content : json)
| FileResponse (path media_type filename : str).

(** A code point UTF-8 has no encoding for: a surrogate on its own. *)
Definition surrogate (c : char) : bool := (0xD800 <=? c) && (c <=? 0xDFFF).

(** [s.encode("utf-8")] does not raise. *)
Definition encodable (s : str) : bool := forallb (fun c => negb (surrogate c)) s.

(** Every character of [s] is in Latin-1, the range of the core fonts of
    the PDF library. *)
Definition latin1 (s : str) : bool := forallb (fun c => c <? 256) s.

(** No [NaN] and no infinity anywhere in the value. *)
Fixpoint finite_json (v : json) : bool :=
  match v with
  | JFloat f => negb (PrimFloat.is_nan f || PrimFloat.is_infinity f)
  | JArr l => forallb finite_json l
  | JObj d => forallb (fun kv => finite_json (snd kv)) d
  | _ => true
  end.

(** No lone surrogate in any key or string of the value. *)
Fixpoint encodable_json (v : json) : bool :=
  match v with
  | JStr s => encodable s
  | JArr l => forallb encodable_json l
  | JObj d => forallb (fun kv => encodable (fst kv) && encodable_json (snd kv)) d
  | _ => true
  end.

(** [JSONResponse(content)]: the constructor renders the body at once, with
    [json.dumps(content, ensure_ascii=False, allow_nan=False, ...)] and then
    [.encode("utf-8")].  The first raises [ValueError] on a float that is
    not finite, the second [UnicodeEncodeError] on a lone surrogate. *)
Definition json_response (content : json) : M response :=
  if finite_json content then
    if encodable_json content then ret (JSONResponse content)
    else raise UnicodeEncodeError
  else raise ValueError.

(** Lines 191-192: [with open(path, "w", encoding="utf-8") as f:
    f.write(text)].  Opening can fail; once the file is open it exists and
    is empty, and the write raises on a text UTF-8 cannot encode. *)
Definition write_file (w : world) (path text : str) : M unit :=
  if can_open w path then
    if encodable text then store_file path (TextFile text)
    else store_file path EmptyFile ;;; raise UnicodeEncodeError
  else raise OSError.

(** [json.loads(raw_response)]: the argument has to be a [str]. *)
Definition py_json_loads (w : world) (raw_response : json) : result json :=
  match raw_response with
  | JStr s =>
      match json_loads w s with
      | Some v => Ok v
      | None => Raise JSONDecodeError
      end
  | _ => Raise TypeError
  end.

(** [req.language] as a value. *)
Definition language_value (language : option str) : json :=
  match language with
  | Some s => JStr s
  | None => JNull
  end.

(** The body of the [try] of lines 169-171. *)
Definition parse_try (w : world) (raw_response : json) (language : option str)
    : result dict :=
  parsed <~ py_json_loads w raw_response ;;
  parsed <~ py_setdefault parsed (lit "metadata") (JObj []) ;;
  metadata <~ py_getitem parsed (lit "metadata") ;;
  metadata <~ py_setdefault metadata (lit "language") (language_value language) ;;
  Ok (dict_set (lit "metadata") (JObj metadata) parsed).

(** The dict of the [except] branch, lines 173-174. *)
Definition wrap_raw (raw_response : json) (language : option str) : dict :=
  [(lit "summary", raw_response);
   (lit "issues", JArr []);
   (lit "suggestions", JArr []);
   (lit "automatic_fixes", JArr []);
   (lit "effort_estimate", JNull);
   (lit "docs_updates", JArr []);
   (lit "metadata", JObj [(lit "language", language_value language)])].

(** Lines 168-174: [parsed] after the [try]/[except]. *)
Definition parse_response (w : world) (raw_response : json) (language : option str)
    : dict :=
  match parse_try w raw_response language with
  | Ok parsed => parsed
  | Raise _ => wrap_raw raw_response language
  end.

Definition endswith (suffix s : str) : bool := startswith (rev suffix) (rev s).

(** [os.path.join(a, b)] of [posixpath]. *)
Definition path_join (a b : str) : str :=
  if startswith (lit "/") b then b
  else match a with
       | [] => b
       | _ :: _ => if endswith (lit "/") a then a ++ b else a ++ lit "/" ++ b
       end.

(** Lines 182-186: the calls on the [FPDF] object, ending in the file.
    The font set on line 184 is a core font, which has the characters of
    Latin-1 only: on any other character the calls raise. *)
Definition render_pdf (w : world) (tmp_file formatted : str) : M unit :=
  if latin1 formatted && fpdf_renders w formatted
  then store_file tmp_file (PdfFile formatted)
  else
    (if fpdf_litters w formatted then store_file tmp_file EmptyFile else ret tt) ;;;
    raise RenderError.

Definition is_true (o : option bool) : bool :=
  match o with
  | Some b => b
  | None => false
  end.

Definition analyze_code (w : world) (req : CodeRequest) : M response :=
  match strip (code req) with
  | [] => raise (HTTPException 400 (lit "No code provided."))
  | _ :: _ =>
      let prompt := build_prompt (code req) (language req) in
      raw_response <- call_llm w prompt ;;
      let parsed := parse_response w raw_response (language req) in
      formatted <- lift (format_analysis w parsed) ;;
      if is_true (request_pdf req) then
        let tmp_file :=
          path_join (gettempdir w)
                    (lit "analysis_" ++ str_of_int (getpid w) ++ lit ".pdf") in
        returned <-
          (if PDF_AVAILABLE w then
             try_except
               (render_pdf w tmp_file formatted ;;;
                ret (Some (FileResponse tmp_file (lit "application/pdf")
                                        (lit "analysis.pdf"))))
               (fun _ => ret None)
           else ret None) ;;
        match returned with
        | Some resp => ret resp
        | None =>
            let txt_file := replace (lit ".pdf") (lit ".txt") tmp_file in
            write_file w txt_file formatted ;;;
            ret (FileResponse txt_file (lit "text/plain") (lit "analysis.txt"))
        end
      else
        json_response (JObj [(lit "formatted_analysis", JStr formatted);
                             (lit "raw", JObj parsed)])
  end.

(** The status the framework answers with: 200 for a returned response, the
    code of an [HTTPException], 500 for any other exception that leaves the
    handler. *)
Definition http_status (outcome : result response) : Z :=
  match outcome with
  | Ok _ => 200
  | Raise (HTTPException status_code _) => status_code
  | Raise _ => 500
  end.

(** One request, served from a fresh state. *)
Definition serve (w : world) (req : CodeRequest) : result response * state :=
  analyze_code w req initial.

(** ** A decoder to run the handler with

    [json.loads] is a parameter of the development.  To evaluate the handler
    on concrete requests the parameter is set to this decoder, which
    follows the scanner of the [json] module: objects, arrays, strings,
    numbers, the three literals and the constants [NaN], [Infinity] and
    [-Infinity] that [json.loads] accepts by default. *)

Module Decoder.

Fixpoint skip_ws (s : str) : str :=
  match s with
  | c :: r => if (c =? 32) || (c =? 9) || (c =? 10) || (c =? 13) then skip_ws r else s
  | [] => []
  end.

Definition hexval (c : char) : option N :=
  if (48 <=? c) && (c <=? 57) then Some (c - 48)
  else if (97 <=? c) && (c <=? 102) then Some (c - 87)
  else if (65 <=? c) && (c <=? 70) then Some (c - 55)
  else None.

Definition hex4val (a b c d : char) : option N :=
  match hexval a, hexval b, hexval c, hexval d with
  | Some x, Some y, Some z, Some t => Some (x * 4096 + y * 256 + z * 16 + t)
  | _, _, _, _ => None
  end.

(** The characters of a string after its opening quote, up to the closing
    one.  [high] holds a pending high surrogate. *)
Fixpoint string_body (high : option N) (acc : str) (s : str) : option (str * str) :=
  let flush := match high with Some h => h :: acc | None => acc end in
  match s with
  | [] => None
  | 34 :: r => Some (rev flush, r)
  | 92 :: 117 :: a :: b :: c :: d :: r =>
      match hex4val a b c d with
      | None => None
      | Some n =>
          match high with
          | Some h =>
              if (56320 <=? n) && (n <=? 57343)
              then string_body None (65536 + (h - 55296) * 1024 + (n - 56320) :: acc) r
              else if (55296 <=? n) && (n <=? 56319)
                   then string_body (Some n) (h :: acc) r
                   else string_body None (n :: h :: acc) r
          | None =>
              if (55296 <=? n) && (n <=? 56319)
              then string_body (Some n) acc r
              else string_body None (n :: acc) r
          end
      end
  | 92 :: e :: r =>
      let simple (c : char) := string_body None (c :: flush) r in
      if e =? 34 then simple 34
      else if e =? 92 then simple 92
      else if e =? 47 then simple 47
      else if e =? 98 then simple 8
      else if e =? 102 then simple 12
      else if e =? 110 then simple 10
      else if e =? 114 then simple 13
      else if e =? 116 then simple 9
      else None
  | c :: r => if c <? 32 then None else string_body None (c :: flush) r
  end.

Definition is_digit (c : char) : bool := (48 <=? c) && (c <=? 57).

Fixpoint digits (acc : N) (s : str) : N * str :=
  match s with
  | c :: r => if is_digit c then digits (acc * 10 + (c - 48)) r else (acc, s)
  | [] => (acc, [])
  end.

(** A run of digits read onto [acc], with the number of digits read. *)
Fixpoint counted_digits (acc : N) (count : Z) (s : str) : N * Z * str :=
  match s with
  | c :: r =>
      if is_digit c then counted_digits (acc * 10 + (c - 48)) (count + 1)%Z r
      else (acc, count, s)
  | [] => (acc, count, [])
  end.

(** [float(text)] for the text of a number: the binary64 nearest to
    [mantissa * 10 ^ exponent], ties to even, with the sign kept on a zero.
    The two tests on [exponent] only spare the powers of ten whose result
    is known: with a mantissa of at least one, [10 ^ 310] is beyond the
    largest float, and a quotient below [2 ^ -1076] rounds to zero. *)
Definition float_of_decimal (negative : bool) (mantissa : N) (exponent : Z) : float :=
  SF2Prim
    match mantissa with
    | N0 => S754_zero negative
    | Npos m =>
        if (0 <=? exponent)%Z then
          if (309 <? exponent)%Z then S754_infinity negative
          else binary_round prec emax negative (Z.to_pos (Zpos m * 10 ^ exponent)) 0
        else
          if (Z.log2 (Zpos m) + 1077 <? 3 * - exponent)%Z then S754_zero negative
          else
            let '(q, e, l) :=
              SFdiv_core_binary prec emax (Zpos m) 0 (10 ^ (- exponent))%Z 0 in
            binary_round_aux prec emax negative q e l
    end.

(** A number as the scanner matches it: an optional minus sign, a zero or a
    run of digits that does not start with zero, then a fraction (a dot and
    at least one digit) and an exponent ([e] or [E], an optional sign and at
    least one digit), each taken only when complete.  With neither it is an
    [int], which the interpreter (since version 3.11) refuses to convert
    when it has more than 4300 digits; otherwise it is a [float]. *)
Definition number (s : str) : option (json * str) :=
  let (negative, s1) := match s with 45 :: r => (true, r) | _ => (false, s) end in
  match s1 with
  | c :: r =>
      if is_digit c then
        let '(n, int_digits, s2) :=
          if c =? 48 then (0, 1%Z, r) else counted_digits 0 0 s1 in
        let '(mantissa, places, s3) :=
          match s2 with
          | 46 :: d :: _ => if is_digit d then counted_digits n 0 (tl s2) else (n, 0%Z, s2)
          | _ => (n, 0%Z, s2)
          end in
        let has_fraction := (0 <? places)%Z in
        let exponent_of (minus : bool) (t : str) : option (Z * str) :=
          match t with
          | d :: _ =>
              if is_digit d then
                let (x, s4) := digits 0 t in
                Some (if minus then (- Z.of_N x)%Z else Z.of_N x, s4)
              else None
          | [] => None
          end in
        let exponent :=
          match s3 with
          | e :: t =>
              if (e =? 101) || (e =? 69) then
                match t with
                | 43 :: u => exponent_of false u
                | 45 :: u => exponent_of true u
                | _ => exponent_of false t
                end
              else None
          | [] => None
          end in
        match exponent with
        | Some (x, s4) => Some (JFloat (float_of_decimal negative mantissa (x - places)), s4)
        | None =>
            if has_fraction
            then Some (JFloat (float_of_decimal negative mantissa (- places)), s3)
            else if (4300 <? int_digits)%Z then None
                 else Some (JInt (if negative then (- Z.of_N n)%Z else Z.of_N n), s3)
        end
      else None
  | [] => None
  end.

Section Containers.

(** The decoder of one value, one level down. *)
Variable value : str -> option (json * str).

(** Elements after an opening bracket or a comma. *)
Fixpoint elements (fuel : nat) (acc : list json) (s : str) : option (list json * str) :=
  match fuel with
  | O => None
  | S fuel' =>
      match value s with
      | None => None
      | Some (v, r) =>
          match skip_ws r with
          | 44 :: r' => elements fuel' (v :: acc) r'
          | 93 :: r' => Some (rev (v :: acc), r')
          | _ => None
          end
      end
  end.

(** Members after an opening brace or a comma; a repeated key keeps its
    place and takes the later value. *)
Fixpoint members (fuel : nat) (acc : dict) (s : str) : option (dict * str) :=
  match fuel with
  | O => None
  | S fuel' =>
      match skip_ws s with
      | 34 :: r =>
          match string_body None [] r with
          | None => None
          | Some (k, r1) =>
              match skip_ws r1 with
              | 58 :: r2 =>
                  match value r2 with
                  | None => None
                  | Some (v, r3) =>
                      match skip_ws r3 with
                      | 44 :: r4 => members fuel' (dict_set k v acc) r4
                      | 125 :: r4 => Some (dict_set k v acc, r4)
                      | _ => None
                      end
                  end
              | _ => None
              end
          end
      | _ => None
      end
  end.

End Containers.

Fixpoint value (fuel : nat) (s : str) : option (json * str) :=
  match fuel with
  | O => None
  | S fuel' =>
      match skip_ws s with
      | 34 :: r =>
          match string_body None [] r with
          | Some (t, r') => Some (JStr t, r')
          | None => None
          end
      | 91 :: r =>
          match skip_ws r with
          | 93 :: r' => Some (JArr [], r')
          | _ =>
              match elements (value fuel') fuel' [] r with
              | Some (l, r') => Some (JArr l, r')
              | None => None
              end
          end
      | 123 :: r =>
          match skip_ws r with
          | 125 :: r' => Some (JObj [], r')
          | _ =>
              match members (value fuel') fuel' [] r with
              | Some (d, r') => Some (JObj d, r')
              | None => None
              end
          end
      | 110 :: 117 :: 108 :: 108 :: r => Some (JNull, r)
      | 116 :: 114 :: 117 :: 101 :: r => Some (JBool true, r)
      | 102 :: 97 :: 108 :: 115 :: 101 :: r => Some (JBool false, r)
      | 78 :: 97 :: 78 :: r => Some (JFloat nan, r)
      | 73 :: 110 :: 102 :: 105 :: 110 :: 105 :: 116 :: 121 :: r =>
          Some (JFloat infinity, r)
      | 45 :: 73 :: 110 :: 102 :: 105 :: 110 :: 105 :: 116 :: 121 :: r =>
          Some (JFloat neg_infinity, r)
      | s' => number s'
      end
  end.

Definition decode (s : str) : option json :=
  match value (S (length s)) s with
  | Some (v, r) => match skip_ws r with [] => Some v | _ :: _ => None end
  | None => None
  end.

End Decoder.

(** ** Vocabulary of the properties *)

(** The line numbers, counted from [start], of the lines the test of line
    103 accepts. *)
Definition matching (start : Z) (lines : list str) : list Z :=
  map fst (filter (fun numbered => zero_division (snd numbered)) (enumerate start lines)).

(** The pattern as the documentation words it: a slash between spaces
    before the zero, or a slash and a zero once spaces are removed. *)
Definition documented_pattern (line : str) : bool :=
  contains (lit " / 0") line || contains (lit "/0") (replace (lit " ") [] line).

(** [d[outer][inner]] when [d[outer]] is a dict. *)
Definition nested_get (outer inner : str) (d : dict) : option json :=
  match dict_get outer d with
  | Some (JObj m) => dict_get inner m
  | _ => None
  end.

(** The language a decoded provider answer already declares. *)
Definition declared_language (v : json) : option json :=
  match v with
  | JObj d => nested_get (lit "metadata") (lit "language") d
  | _ => None
  end.

(** The call of [call_llm] ends in the [except] branch: the POST raised, or
    its body has no [get] method. *)
Definition falls_back (w : world) (prompt : str) : bool :=
  match llm_server w prompt with
  | None => true
  | Some (JObj _) => false
  | Some _ => true
  end.

(** The value of the local variable [formatted] in a run of the handler
    that gets past the check of the code. *)
Definition formatted_text (w : world) (req : CodeRequest) (st : state) : result str :=
  match call_llm w (build_prompt (code req) (language req)) st with
  | (Ok raw_response, _) =>
      format_analysis w (parse_response w raw_response (language req))
  | (Raise e, _) => Raise e
  end.

(** The [raw] member of a JSON response. *)
Definition raw_of (outcome : result response) : option dict :=
  match outcome with
  | Ok (JSONResponse (JObj fields)) =>
      match dict_get (lit "raw") fields with
      | Some (JObj d) => Some d
      | _ => None
      end
  | _ => None
  end.

(** A value [format_analysis] can walk under a list key: falsy, or a list
    of dicts. *)
Definition is_dict (v : json) : bool :=
  match v with
  | JObj _ => true
  | _ => false
  end.

Definition dicts_or_falsy (v : json) : bool :=
  match v with
  | JArr l => forallb is_dict l
  | _ => negb (truthy v)
  end.

(** Falsy, or something a [for] loop accepts. *)
Definition iterable_or_falsy (v : json) : bool :=
  match v with
  | JArr _ | JStr _ | JObj _ => true
  | _ => negb (truthy v)
  end.

Definition well_shaped (analysis : dict) : bool :=
  dicts_or_falsy (get_or_none (lit "issues") analysis) &&
  iterable_or_falsy (get_or_none (lit "suggestions") analysis) &&
  dicts_or_falsy (get_or_none (lit "automatic_fixes") analysis) &&
  iterable_or_falsy (get_or_none (lit "docs_updates") analysis).

(** *** The typed analysis result

    The dicts the source builds (lines 104-114, 119-127, 173-174) all have
    one shape.  [AnalysisResult] is that shape as a record, [to_dict] the
    dict it stands for. *)

Inductive Severity : Type := low | medium | high.

Definition severity_text (s : Severity) : str :=
  match s with
  | low => lit "low"
  | medium => lit "medium"
  | high => lit "high"
  end.

Inductive LineRef : Type :=
| LineNumber (n : Z)
| LineUnknown.

Record Issue : Type := {
  issue_line : LineRef;
  issue_severity : Severity;
  issue_title : str;
  issue_description : str
}.

Record Fix : Type := {
  fix_description : str;
  fix_patch : str
}.

Record AnalysisResult : Type := {
  summary : str;
  issues : list Issue;
  suggestions : list str;
  automatic_fixes : list Fix;
  effort_estimate : option str;
  docs_updates : list str;
  metadata : list (str * str)
}.

Definition line_json (l : LineRef) : json :=
  match l with
  | LineNumber n => JInt n
  | LineUnknown => JStr (lit "unknown")
  end.

Definition issue_json (i : Issue) : json :=
  JObj [(lit "line", line_json (issue_line i));
        (lit "severity", JStr (severity_text (issue_severity i)));
        (lit "title", JStr (issue_title i));
        (lit "description", JStr (issue_description i))].

Definition fix_json (f : Fix) : json :=
  JObj [(lit "description", JStr (fix_description f));
        (lit "patch", JStr (fix_patch f))].

Definition to_dict (a : AnalysisResult) : dict :=
  [(lit "summary", JStr (summary a));
   (lit "issues", JArr (map issue_json (issues a)));
   (lit "suggestions", JArr (map JStr (suggestions a)));
   (lit "automatic_fixes", JArr (map fix_json (automatic_fixes a)));
   (lit "effort_estimate",
    match effort_estimate a with Some e => JStr e | None => JNull end);
   (lit "docs_updates", JArr (map JStr (docs_updates a)));
   (lit "metadata", JObj (map (fun kv => (fst kv, JStr (snd kv))) (metadata a)))].

(** *** The sections of the formatted text *)

Inductive section : Type :=
| Summary
| IssuesFound
| Suggestions
| AutomaticFixes
| EstimatedEffort
| DocumentationUpdates.

Definition SECTION_ORDER : list section :=
  [Summary; IssuesFound; Suggestions; AutomaticFixes; EstimatedEffort;
   DocumentationUpdates].

Definition nonempty {A : Type} (l : list A) : bool :=
  match l with
  | [] => false
  | _ :: _ => true
  end.

(** Whether the formatted text has the section. *)
Definition shown (a : AnalysisResult) (s : section) : bool :=
  match s with
  | Summary => true
  | IssuesFound => nonempty (issues a)
  | Suggestions => nonempty (suggestions a)
  | AutomaticFixes => nonempty (automatic_fixes a)
  | EstimatedEffort =>
      match effort_estimate a with
      | Some e => nonempty e
      | None => false
      end
  | DocumentationUpdates => nonempty (docs_updates a)
  end.

Definition line_text (l : LineRef) : str :=
  match l with
  | LineNumber n => str_of_int n
  | LineUnknown => lit "unknown"
  end.

Definition issue_text (numbered : Z * Issue) : str :=
  let (n, i) := numbered in
  str_of_int n ++ lit ". **" ++ issue_title i ++ lit "** (line " ++
  line_text (issue_line i) ++ lit ", severity " ++
  severity_text (issue_severity i) ++ lit "): " ++ issue_description i ++ [NL].

Definition bullet_text (item : str) : str := lit "- " ++ item ++ [NL].

Definition fix_text (f : Fix) : str :=
  lit "**" ++ fix_description f ++ lit "**" ++ [NL] ++
  lit "```python" ++ [NL] ++ fix_patch f ++ [NL] ++ lit "```" ++ [NL].

(** The text of one section: its header line, its items, a blank line. *)
Definition section_text (a : AnalysisResult) (s : section) : str :=
  match s with
  | Summary => HDR_SUMMARY ++ summary a ++ [NL; NL]
  | IssuesFound =>
      HDR_ISSUES ++ concat (map issue_text (enumerate 1 (issues a))) ++ [NL]
  | Suggestions =>
      HDR_SUGGESTIONS ++ concat (map bullet_text (suggestions a)) ++ [NL]
  | AutomaticFixes =>
      HDR_FIXES ++ concat (map fix_text (automatic_fixes a)) ++ [NL]
  | EstimatedEffort =>
      HDR_EFFORT ++ match effort_estimate a with Some e => e | None => [] end ++
      [NL; NL]
  | DocumentationUpdates =>
      HDR_DOCS ++ concat (map bullet_text (docs_updates a)) ++ [NL]
  end.

(** The sections that are shown, in the fixed order, one after another. *)
Definition document (a : AnalysisResult) : str :=
  concat (map (section_text a) (filter (shown a) SECTION_ORDER)).

(** The text of a section when it is shown, nothing otherwise. *)
Definition if_shown (a : AnalysisResult) (s : section) : str :=
  if shown a s then section_text a s else [].

(** The result of the heuristic on [code], typed. *)
Definition simulated_result (code : str) : AnalysisResult :=
  let hits := matching 1 (splitlines code) in
  {| summary :=
       if nonempty hits then SUMMARY_BASE else SUMMARY_BASE ++ NO_ISSUES_SENTENCE;
     issues :=
       map (fun n =>
              {| issue_line := LineNumber n;
                 issue_severity := high;
                 issue_title := lit "ZeroDivisionError possible";
                 issue_description :=
                   lit "Division by zero detected. This will raise an exception at runtime." |})
           hits;
     suggestions :=
       map (fun _ => lit "Check for division by zero before performing division.") hits;
     automatic_fixes :=
       map (fun _ =>
              {| fix_description := lit "Add check for zero denominator";
                 fix_patch :=
                   lit "if b != 0:" ++ [NL] ++ lit "    result = a / b" ++ [NL] ++
                   lit "else:" ++ [NL] ++ lit "    result = None  # handle error" |})
           hits;
     effort_estimate := Some (lit "5-15 minutes");
     docs_updates := [lit "Add README section describing usage."];
     metadata := [(lit "language", lit "python"); (lit "analysis_time", lit "simulated")] |}.

(** The keys of an analysis result, in the order of the dict literal. *)
Definition RESULT_KEYS : list str :=
  [lit "summary"; lit "issues"; lit "suggestions"; lit "automatic_fixes";
   lit "effort_estimate"; lit "docs_updates"; lit "metadata"].

(** The prompt up to the opening triple quote. *)
Definition prompt_header (language : option str) : str :=
  [NL] ++
  lit "You are a senior software engineer and code reviewer. Analyze the " ++
  format_opt language ++
  lit " code and return a JSON object ONLY:" ++ [NL] ++
  lit "- summary, issues, suggestions, automatic_fixes, effort_estimate, docs_updates, metadata." ++ [NL] ++
  lit "CODE:" ++ [NL].

(** ** Concrete worlds and requests *)

(** The model server is down and there is no PDF library. *)
Definition offline : world :=
  {| py_repr := fun _ => [];
     json_loads := Decoder.decode;
     llm_server := fun _ => None;
     PDF_AVAILABLE := false;
     fpdf_renders := fun _ => false;
     fpdf_litters := fun _ => false;
     can_open := fun _ => true;
     gettempdir := lit "/tmp";
     getpid := 4242 |}.

(** The model server answers every prompt with [completion]. *)
Definition answering (completion : str) : world :=
  {| py_repr := fun _ => [];
     json_loads := Decoder.decode;
     llm_server := fun _ => Some (JObj [(lit "completion", JStr completion)]);
     PDF_AVAILABLE := true;
     fpdf_renders := fun _ => false;
     fpdf_litters := fun _ => false;
     can_open := fun _ => true;
     gettempdir := lit "/tmp";
     getpid := 4242 |}.

Definition ruby_request : CodeRequest :=
  {| code := lit "x = 1" ++ [NL] ++ lit "y = a / 0" ++ [NL];
     language := Some (lit "ruby");
     request_pdf := Some false |}.

Definition pdf_request : CodeRequest :=
  {| code := lit "print(1)";
     language := Some (lit "python");
     request_pdf := Some true |}.

Definition blank_request : CodeRequest :=
  {| code := [SPACE; NL; 9; 160];
     language := None;
     request_pdf := None |}.

(** The text [{"issues": 5}]. *)
Definition issues_is_a_number : str :=
  lit "{" ++ [QUOTE] ++ lit "issues" ++ [QUOTE] ++ lit ": 5}".

(** The text [{"summary": "ok", "issues": ["Division by zero on line 2"]}]:
    the issues are given as sentences, not as objects. *)
Definition issues_are_sentences : str :=
  lit "{" ++ [QUOTE] ++ lit "summary" ++ [QUOTE] ++ lit ": " ++
  [QUOTE] ++ lit "ok" ++ [QUOTE] ++ lit ", " ++
  [QUOTE] ++ lit "issues" ++ [QUOTE] ++ lit ": [" ++
  [QUOTE] ++ lit "Division by zero on line 2" ++ [QUOTE] ++ lit "]}".

(** The text [{"summary": "ok"}]. *)
Definition summary_only : str :=
  lit "{" ++ [QUOTE] ++ lit "summary" ++ [QUOTE] ++ lit ": " ++
  [QUOTE] ++ lit "ok" ++ [QUOTE] ++ lit "}".

(** A function with a docstring: the division is on its third line. *)
Definition docstring_code : str :=
  lit "def f(a):" ++ [NL] ++
  lit "    " ++ TRIPLE_QUOTE ++ lit "Divide." ++ TRIPLE_QUOTE ++ [NL] ++
  lit "    return a / 0".

Definition effort_only : AnalysisResult :=
  {| summary := lit "Looks fine.";
     issues := [];
     suggestions := [];
     automatic_fixes := [];
     effort_estimate := Some (lit "1 hour");
     docs_updates := [];
     metadata := [] |}.

Definition one_issue : AnalysisResult :=
  {| summary := lit "One problem.";
     issues := [{| issue_line := LineNumber 2; issue_severity := high;
                   issue_title := lit "ZeroDivisionError possible";
                   issue_description := lit "Division by zero." |}];
     suggestions := [];
     automatic_fixes := [];
     effort_estimate := None;
     docs_updates := [];
     metadata := [(lit "language", lit "python")] |}.

(** ** Vocabulary of the further properties *)

(** What [call_llm] returns for a prompt: the value under ["completion"]
    of the server's answer (the empty text when the key is missing), or the
    heuristic's text when the call ends in the [except] branch. *)
Definition provider_answer (w : world) (prompt : str) : json :=
  match llm_server w prompt with
  | Some (JObj d) =>
      match dict_get (lit "completion") d with
      | Some c => c
      | None => JStr []
      end
  | _ => JStr (simulate_analysis w prompt)
  end.

(** The events of one call of [call_llm]. *)
Definition call_events (w : world) (prompt : str) : list event :=
  RemoteCall prompt :: (if falls_back w prompt then [HeuristicCall prompt] else []).

(** The value of the local variable [parsed] for a request. *)
Definition parsed_answer (w : world) (req : CodeRequest) : dict :=
  parse_response w (provider_answer w (build_prompt (code req) (language req)))
                 (language req).

(** The answers the [try] of lines 169-171 gets through with: a text that
    decodes to a dict whose ["metadata"] is missing or a dict. *)
Definition accepted_answer (w : world) (answer : json) : bool :=
  match answer with
  | JStr s =>
      match json_loads w s with
      | Some (JObj d) =>
          match dict_get (lit "metadata") d with
          | Some (JObj _) | None => true
          | Some _ => false
          end
      | _ => false
      end
  | _ => false
  end.

(** The dict an accepted answer decodes to. *)
Definition decoded_dict (w : world) (answer : json) : dict :=
  match answer with
  | JStr s =>
      match json_loads w s with
      | Some (JObj d) => d
      | _ => []
      end
  | _ => []
  end.

(** The value of the local variable [tmp_file]. *)
Definition tmp_path (w : world) : str :=
  path_join (gettempdir w) (lit "analysis_" ++ str_of_int (getpid w) ++ lit ".pdf").

(** The Summary block of the formatter for any dict: the header, the text
    of [analysis.get('summary', '')], a blank line. *)
Definition summary_block (w : world) (analysis : dict) : str :=
  HDR_SUMMARY ++
  py_str (py_repr w)
         (match dict_get (lit "summary") analysis with Some v => v | None => JStr [] end) ++
  [NL; NL].

Definition SLASH : char := 47.
Definition ZERO : char := 48.

(** The server answers every prompt with the body [data].  The PDF library
    is there: it renders every text its font has the characters of, and
    when it raises it has already created the file. *)
Definition responding (data : json) : world :=
  {| py_repr := fun _ => [];
     json_loads := Decoder.decode;
     llm_server := fun _ => Some data;
     PDF_AVAILABLE := true;
     fpdf_renders := fun _ => true;
     fpdf_litters := fun _ => true;
     can_open := fun _ => true;
     gettempdir := lit "/tmp";
     getpid := 4242 |}.


(** The text [{"summary": "ok", "extra": 1, "metadata": {"tool": "x"}}]. *)
Definition answer_with_metadata : str :=
  lit "{" ++ [QUOTE] ++ lit "summary" ++ [QUOTE] ++ lit ": " ++
  [QUOTE] ++ lit "ok" ++ [QUOTE] ++ lit ", " ++
  [QUOTE] ++ lit "extra" ++ [QUOTE] ++ lit ": 1, " ++
  [QUOTE] ++ lit "metadata" ++ [QUOTE] ++ lit ": {" ++
  [QUOTE] ++ lit "tool" ++ [QUOTE] ++ lit ": " ++
  [QUOTE] ++ lit "x" ++ [QUOTE] ++ lit "}}".

(** The exceptions the formatter can raise. *)
Definition formatter_error (e : exn) : Prop := e = TypeError \/ e = AttributeError.

(** The state after the call of [call_llm] for a request. *)
Definition after_call (w : world) (req : CodeRequest) (st : state) : state :=
  {| files := files st;
     trace := trace st ++ call_events w (build_prompt (code req) (language req)) |}.

(** Lines 178-195: what the handler does once [formatted] is there. *)
Definition respond (w : world) (req : CodeRequest) (formatted : str) : M response :=
  if is_true (request_pdf req) then
    returned <-
      (if PDF_AVAILABLE w then
         try_except
           (render_pdf w (tmp_path w) formatted ;;;
            ret (Some (FileResponse (tmp_path w) (lit "application/pdf")
                                    (lit "analysis.pdf"))))
           (fun _ => ret None)
       else ret None) ;;
    match returned with
    | Some resp => ret resp
    | None =>
        let txt_file := replace (lit ".pdf") (lit ".txt") (tmp_path w) in
        write_file w txt_file formatted ;;;
        ret (FileResponse txt_file (lit "text/plain") (lit "analysis.txt"))
    end
  else
    json_response (JObj [(lit "formatted_analysis", JStr formatted);
                         (lit "raw", JObj (parsed_answer w req))]).

(** No occurrence of [sep] starts inside [pre] when [pre] is followed by
    [sep] and [tail]. *)
Definition first_at (sep pre tail : str) : Prop :=
  forall a b : str, pre = a ++ b -> b <> [] -> startswith sep (b ++ sep ++ tail) = false.

Definition DOT : char := 46.

(** The value of the local variable [txt_file]. *)
Definition txt_path (w : world) : str := replace (lit ".pdf") (lit ".txt") (tmp_path w).

(** The body of the JSON response for a request and its formatted text. *)
Definition response_content (w : world) (req : CodeRequest) (formatted : str) : json :=
  JObj [(lit "formatted_analysis", JStr formatted);
        (lit "raw", JObj (parsed_answer w req))].

(** What [JSONResponse] accepts. *)
Definition serialisable (content : json) : bool :=
  finite_json content && encodable_json content.


(** The request's language as the wrapper holds it can be encoded. *)
Definition encodable_language (language : option str) : bool :=
  match language with
  | Some l => encodable l
  | None => true
  end.

(** The text [{"summary": "\ud800"}]: a summary that is a lone surrogate. *)
Definition surrogate_summary : str :=
  lit "{" ++ [QUOTE] ++ lit "summary" ++ [QUOTE] ++ lit ": " ++
  [QUOTE; BACKSLASH] ++ lit "ud800" ++ [QUOTE] ++ lit "}".

(** The text [{"summary": "ok", "score": NaN}]. *)
Definition nan_score : str :=
  lit "{" ++ [QUOTE] ++ lit "summary" ++ [QUOTE] ++ lit ": " ++
  [QUOTE] ++ lit "ok" ++ [QUOTE] ++ lit ", " ++
  [QUOTE] ++ lit "score" ++ [QUOTE] ++ lit ": NaN}".

(** A language that holds the delimiter and a division by zero. *)
Definition delimiter_language : str :=
  TRIPLE_QUOTE ++ lit "q/0" ++ TRIPLE_QUOTE.



(** The state after the attempt at the PDF for a text the font does not
    cover: as before, but for the file a failed rendering may leave. *)
Definition after_render (w : world) (formatted : str) (st : state) : state :=
  if PDF_AVAILABLE w && fpdf_litters w formatted
  then {| files := (tmp_path w, EmptyFile) :: files st; trace := trace st |}
  else st.

Definition TEXT_RESPONSE (w : world) : response :=
  FileResponse (txt_path w) (lit "text/plain") (lit "analysis.txt").

(** * Properties *)

(** ** The model on small inputs *)

Example splitlines_sample :
  splitlines (lit "a" ++ [NL; NL] ++ lit "b" ++ [CR; NL] ++ lit "c" ++ [NL]) =
  [lit "a"; []; lit "b"; lit "c"].
Proof. reflexivity. Qed.

Example split_sample :
  split TRIPLE_QUOTE
        (lit "ab" ++ TRIPLE_QUOTE ++ TRIPLE_QUOTE ++ [QUOTE] ++ lit "c") =
  [lit "ab"; []; [QUOTE] ++ lit "c"].
Proof. reflexivity. Qed.

Example strip_sample : strip ([9; SPACE] ++ lit "a b" ++ [NL; 160]) = lit "a b".
Proof. reflexivity. Qed.

Example zero_division_samples :
  zero_division (lit "y = a / 0") = true /\
  zero_division (lit "y = a/0") = true /\
  zero_division (lit "y = a /  0.5") = true /\
  zero_division (lit "y = a / b") = false.
Proof. repeat split. Qed.

Example json_dumps_sample :
  json_dumps (py_repr offline)
             (JObj [(lit "line", JInt 2); (lit "tags", JArr [JStr [233; NL]; JNull])]) =
  lit "{" ++ [QUOTE] ++ lit "line" ++ [QUOTE] ++ lit ": 2, " ++
  [QUOTE] ++ lit "tags" ++ [QUOTE] ++ lit ": [" ++
  [QUOTE; BACKSLASH] ++ lit "u00e9" ++ [BACKSLASH] ++ lit "n" ++ [QUOTE] ++
  lit ", null]}".
Proof. reflexivity. Qed.

(** The decoder gives back the heuristic's dict from the heuristic's
    text. *)
Example decode_simulated_sample :
  Decoder.decode
    (simulate_analysis offline (build_prompt (code ruby_request) (language ruby_request))) =
  Some (JObj (simulated (build_prompt (code ruby_request) (language ruby_request)))).
Proof. vm_compute. reflexivity. Qed.

Example format_one_issue :
  format_analysis offline (to_dict one_issue) =
  Ok (HDR_SUMMARY ++ lit "One problem." ++ [NL; NL] ++
      HDR_ISSUES ++
      lit "1. **ZeroDivisionError possible** (line 2, severity high): Division by zero." ++
      [NL; NL]).
Proof. reflexivity. Qed.

Example serve_offline_sample :
  exists formatted raw,
    serve offline ruby_request =
    (Ok (JSONResponse (JObj [(lit "formatted_analysis", JStr formatted);
                             (lit "raw", JObj raw)])),
     {| files := [];
        trace := [RemoteCall (build_prompt (code ruby_request) (language ruby_request));
                  HeuristicCall (build_prompt (code ruby_request) (language ruby_request))] |}) /\
    dict_get (lit "issues") raw = Some (JArr [issue_at 2]).
Proof. eexists. eexists. vm_compute. split; reflexivity. Qed.

(** ** Strings *)

Lemma startswith_iff (p s : str) :
  startswith p s = true <-> exists t, s = p ++ t.
Proof.
  revert s; induction p as [|x p IH]; intros s; simpl.
  - split; [intros _; now exists s | trivial].
  - destruct s as [|y s].
    + split; [discriminate | intros [t Ht]; discriminate].
    + rewrite andb_true_iff, N.eqb_eq, IH. split.
      * intros [-> [t ->]]. now exists t.
      * intros [t Ht]. injection Ht as -> ->. split; [reflexivity | now exists t].
Qed.

Lemma contains_iff (sub s : str) :
  contains sub s = true <-> exists a b, s = a ++ sub ++ b.
Proof.
  induction s as [|c s IH].
  - simpl. rewrite orb_false_r, startswith_iff. split.
    + intros [t Ht]. exists [], t. exact Ht.
    + intros [a [b Hab]]. destruct a; [now exists b | discriminate].
  - cbn [contains]. rewrite orb_true_iff, startswith_iff, IH. split.
    + intros [[t Ht] | [a [b Hab]]].
      * exists [], t. exact Ht.
      * exists (c :: a), b. simpl. now rewrite Hab.
    + intros [a [b Hab]]. destruct a as [|c' a].
      * left. now exists b.
      * right. injection Hab as _ Hab. now exists a, b.
Qed.

Lemma contains_suffix (sub a s : str) :
  contains sub (a ++ s) = false -> contains sub s = false.
Proof.
  induction a as [|c a IH]; simpl; [trivial|].
  intros H. apply orb_false_iff in H. now apply IH.
Qed.

Lemma lstrip_blank (s : str) : forallb isspace s = true -> lstrip s = [].
Proof.
  induction s as [|c s IH]; simpl; [reflexivity|].
  intros H. apply andb_true_iff in H as [Hc Hs]. rewrite Hc. now apply IH.
Qed.

Lemma lstrip_nil (s : str) : lstrip s = [] -> forallb isspace s = true.
Proof.
  induction s as [|c s IH]; simpl; [reflexivity|].
  destruct (isspace c); [intros H; now apply IH | discriminate].
Qed.

Lemma forallb_rev {A : Type} (f : A -> bool) (l : list A) :
  forallb f (rev l) = forallb f l.
Proof.
  induction l as [|x l IH]; simpl; [reflexivity|].
  rewrite forallb_app, IH. simpl. rewrite andb_true_r. apply andb_comm.
Qed.

(** [lstrip] leaves nothing, or something that starts with a character
    that is not white space. *)
Lemma lstrip_head (s : str) :
  match lstrip s with
  | [] => True
  | c :: _ => isspace c = false
  end.
Proof.
  induction s as [|c s IH]; simpl; [exact I|].
  destruct (isspace c) eqn:E; [exact IH | exact E].
Qed.

(** [s.strip()] is empty exactly when every character of [s] is white
    space. *)
Lemma strip_nil_iff (s : str) : strip s = [] <-> forallb isspace s = true.
Proof.
  unfold strip, rstrip. split.
  - intros H.
    assert (Hl : lstrip (rev (lstrip s)) = []).
    { destruct (lstrip (rev (lstrip s))); [reflexivity|].
      apply (f_equal (@length _)) in H. rewrite length_rev in H. discriminate. }
    apply lstrip_nil in Hl. rewrite forallb_rev in Hl.
    pose proof (lstrip_head s) as Hh.
    destruct (lstrip s) as [|c t] eqn:E; [now apply lstrip_nil|].
    simpl in Hl. rewrite Hh in Hl. discriminate.
  - intros H. now rewrite (lstrip_blank s H).
Qed.

Lemma replace_space (s : str) :
  replace (lit " ") [] s = filter (fun c => negb (c =? SPACE)) s.
Proof.
  unfold replace. induction s as [|c s IH]; [reflexivity|].
  cbn [replace_go filter]. change (lit " ") with [SPACE].
  cbn [startswith length pred]. rewrite andb_true_r, N.eqb_sym.
  destruct (c =? SPACE); simpl; now rewrite <- IH.
Qed.

(** A line the first test of line 103 accepts is accepted by the second
    one too. *)
Lemma spaced_zero_division (line : str) :
  contains (lit "/ 0") line = true ->
  contains (lit "/0") (replace (lit " ") [] line) = true.
Proof.
  rewrite !contains_iff, replace_space. intros [a [b ->]].
  exists (filter (fun c => negb (c =? SPACE)) a),
         (filter (fun c => negb (c =? SPACE)) b).
  now rewrite !filter_app.
Qed.

Lemma zero_division_alt (line : str) :
  zero_division line = contains (lit "/0") (replace (lit " ") [] line).
Proof.
  unfold zero_division.
  destruct (contains (lit "/ 0") line) eqn:E; [|reflexivity].
  now rewrite (spaced_zero_division line E).
Qed.

Lemma spaced_both_sides (line : str) :
  contains (lit " / 0") line = true -> contains (lit "/ 0") line = true.
Proof.
  rewrite !contains_iff. intros [a [b ->]].
  exists (a ++ [SPACE]), b. now rewrite <- app_assoc.
Qed.

(** The pattern of the documentation and the test of the code accept the
    same lines. *)
Lemma documented_pattern_agrees (line : str) :
  documented_pattern line = zero_division line.
Proof.
  rewrite zero_division_alt. unfold documented_pattern.
  destruct (contains (lit " / 0") line) eqn:E; [|reflexivity].
  simpl. symmetry. now apply spaced_zero_division, spaced_both_sides.
Qed.

(** ** The heuristic scan *)

Lemma matching_cons (k : Z) (line : str) (lines : list str) :
  matching k (line :: lines) =
  if zero_division line then k :: matching (k + 1) lines else matching (k + 1) lines.
Proof.
  unfold matching. simpl. now destruct (zero_division line).
Qed.

(** The loop of lines 102-114 appends one issue, one suggestion and one fix
    for each matching line, in the order of the lines. *)
Lemma scan_fold (lines : list str) :
  forall (k : Z) (acc : findings),
    fold_left scan_line (enumerate k lines) acc =
    {| f_issues := f_issues acc ++ map issue_at (matching k lines);
       f_suggestions := f_suggestions acc ++ map (fun _ => the_suggestion) (matching k lines);
       f_auto_fixes := f_auto_fixes acc ++ map (fun _ => the_fix) (matching k lines) |}.
Proof.
  induction lines as [|line lines IH]; intros k acc.
  - simpl. rewrite !app_nil_r. now destruct acc.
  - cbn [enumerate fold_left]. rewrite IH, matching_cons.
    unfold scan_line. destruct (zero_division line); [|reflexivity].
    cbn [f_issues f_suggestions f_auto_fixes map]. now rewrite <- !app_assoc.
Qed.

Lemma scan_issues (code : str) :
  f_issues (scan code) = map issue_at (matching 1 (splitlines code)).
Proof. unfold scan. now rewrite scan_fold. Qed.

Lemma matching_none (lines : list str) :
  forall k, forallb (fun l => negb (zero_division l)) lines = true ->
            matching k lines = [].
Proof.
  induction lines as [|line lines IH]; intros k H; [reflexivity|].
  simpl in H. apply andb_true_iff in H as [Hl Hr].
  rewrite matching_cons. apply negb_true_iff in Hl. rewrite Hl. now apply IH.
Qed.

Lemma matching_one (before : list str) :
  forall (k : Z) (line : str) (after : list str),
    forallb (fun l => negb (zero_division l)) before = true ->
    zero_division line = true ->
    forallb (fun l => negb (zero_division l)) after = true ->
    matching k (before ++ line :: after) = [(k + Z.of_nat (length before))%Z].
Proof.
  induction before as [|b before IH]; intros k line after Hb Hl Ha.
  - simpl app. rewrite matching_cons, Hl, (matching_none after (k + 1) Ha).
    simpl. now rewrite Z.add_0_r.
  - simpl in Hb. apply andb_true_iff in Hb as [Hb1 Hb2].
    apply negb_true_iff in Hb1.
    simpl app. rewrite matching_cons, Hb1, (IH (k + 1)%Z line after Hb2 Hl Ha).
    f_equal. cbn [length]. lia.
Qed.

(** On the text the loop scans: when exactly one line of it matches the
    division-by-zero test, the heuristic reports exactly one issue; its
    [line] is the 1-based number of that line and its [severity] is
    ["high"].  The lines are those of [splitlines]: [before] are the lines
    ahead of the matching one, so its number is [length before + 1]. *)
Theorem single_match_single_issue (code : str) (before after : list str) (line : str) :
  splitlines code = before ++ line :: after ->
  zero_division line = true ->
  forallb (fun l => negb (zero_division l)) before = true ->
  forallb (fun l => negb (zero_division l)) after = true ->
  exists issue : dict,
    f_issues (scan code) = [JObj issue] /\
    dict_get (lit "line") issue = Some (JInt (Z.of_nat (length before) + 1)) /\
    dict_get (lit "severity") issue = Some (JStr (lit "high")) /\
    forall prompt : str,
      extract_code prompt = code ->
      dict_get (lit "issues") (simulated prompt) = Some (JArr [JObj issue]).
Proof.
  intros Hsplit Hline Hbefore Hafter.
  assert (Hscan : f_issues (scan code) = [issue_at (Z.of_nat (length before) + 1)]).
  { rewrite scan_issues, Hsplit, (matching_one before 1 line after Hbefore Hline Hafter).
    simpl. now rewrite Z.add_comm. }
  eexists. split; [exact Hscan|]. split; [reflexivity|]. split; [reflexivity|].
  intros prompt Hprompt. unfold simulated. rewrite Hprompt.
  cbn [dict_get]. change (str_eqb (lit "issues") (lit "summary")) with false.
  change (str_eqb (lit "issues") (lit "issues")) with true. cbv iota.
  now rewrite Hscan.
Qed.

Lemma single_match_single_issue_witness :
  exists issue : dict,
    f_issues (scan (code ruby_request)) = [JObj issue] /\
    dict_get (lit "line") issue = Some (JInt 2) /\
    dict_get (lit "severity") issue = Some (JStr (lit "high")) /\
    forall prompt : str,
      extract_code prompt = code ruby_request ->
      dict_get (lit "issues") (simulated prompt) = Some (JArr [JObj issue]).
Proof.
  apply (single_match_single_issue (code ruby_request) [lit "x = 1"] [] (lit "y = a / 0"));
    vm_compute; reflexivity.
Defined.

(** On the text the loop scans: when no line of it matches the pattern (neither
    [" / 0"] in the line nor ["/0"] once its spaces are removed), the
    heuristic's [issues] is the empty list and its [summary] ends with the
    no-issues sentence. *)
Theorem no_match_no_issue (code : str) :
  forallb (fun l => negb (documented_pattern l)) (splitlines code) = true ->
  f_issues (scan code) = [] /\
  forall prompt : str,
    extract_code prompt = code ->
    dict_get (lit "issues") (simulated prompt) = Some (JArr []) /\
    exists beginning : str,
      dict_get (lit "summary") (simulated prompt) =
      Some (JStr (beginning ++ NO_ISSUES_SENTENCE)).
Proof.
  intros H.
  assert (Hscan : f_issues (scan code) = []).
  { rewrite scan_issues, matching_none; [reflexivity|].
    rewrite <- H. clear H. induction (splitlines code) as [|l ls IH]; [reflexivity|].
    simpl. now rewrite IH, documented_pattern_agrees. }
  split; [exact Hscan|]. intros prompt Hprompt.
  unfold simulated. rewrite Hprompt, Hscan. split; [reflexivity|].
  exists SUMMARY_BASE. reflexivity.
Qed.

Lemma no_match_no_issue_witness :
  f_issues (scan (lit "x = 1")) = [] /\
  forall prompt : str,
    extract_code prompt = lit "x = 1" ->
    dict_get (lit "issues") (simulated prompt) = Some (JArr []) /\
    exists beginning : str,
      dict_get (lit "summary") (simulated prompt) =
      Some (JStr (beginning ++ NO_ISSUES_SENTENCE)).
Proof.
  apply (no_match_no_issue (lit "x = 1")). vm_compute. reflexivity.
Defined.

(** ** Input validation *)

(** C2: a request whose code is empty or all white space is answered with
    status 400, and the handler does nothing else: the state it returns is
    the state it got, so no call to the model server and no heuristic run
    is recorded, whatever the world is. *)
Theorem blank_code_rejected (w : world) (req : CodeRequest) (st : state) :
  forallb isspace (code req) = true ->
  analyze_code w req st = (Raise (HTTPException 400 (lit "No code provided.")), st) /\
  http_status (fst (analyze_code w req st)) = 400%Z /\
  trace (snd (serve w req)) = [].
Proof.
  intros H. apply strip_nil_iff in H.
  assert (E : forall s, analyze_code w req s =
                        (Raise (HTTPException 400 (lit "No code provided.")), s)).
  { intros s. unfold analyze_code. now rewrite H. }
  unfold serve. rewrite !E. repeat split.
Qed.

Lemma blank_code_rejected_witness :
  analyze_code offline blank_request initial =
    (Raise (HTTPException 400 (lit "No code provided.")), initial) /\
  http_status (fst (analyze_code offline blank_request initial)) = 400%Z /\
  trace (snd (serve offline blank_request)) = [].
Proof.
  apply (blank_code_rejected offline blank_request initial). vm_compute. reflexivity.
Defined.

(** ** Decoding the provider's answer *)

Lemma str_eqb_refl (s : str) : str_eqb s s = true.
Proof.
  induction s as [|c s IH]; simpl; [reflexivity|]. now rewrite N.eqb_refl.
Qed.

Lemma dict_get_set (k : str) (v : json) (d : dict) :
  dict_get k (dict_set k v d) = Some v.
Proof.
  induction d as [|[k' v'] d IH]; simpl.
  - now rewrite str_eqb_refl.
  - destruct (str_eqb k k') eqn:E; simpl.
    + now rewrite str_eqb_refl.
    + now rewrite E.
Qed.

Lemma dict_get_setdefault (k : str) (v : json) (d : dict) :
  dict_get k (dict_setdefault k v d) =
  Some (match dict_get k d with Some x => x | None => v end).
Proof.
  unfold dict_setdefault. destruct (dict_get k d) eqn:E.
  - exact E.
  - apply dict_get_set.
Qed.

(** What the [try] block does to a decoded dict. *)
Lemma parse_try_dict (w : world) (text : str) (lang : option str) (d : dict) :
  json_loads w text = Some (JObj d) ->
  parse_try w (JStr text) lang =
  match (match dict_get (lit "metadata") d with Some x => x | None => JObj [] end) with
  | JObj md =>
      Ok (dict_set (lit "metadata")
                   (JObj (dict_setdefault (lit "language") (language_value lang) md))
                   (dict_setdefault (lit "metadata") (JObj []) d))
  | _ => Raise AttributeError
  end.
Proof.
  intros H. unfold parse_try, py_json_loads. rewrite H.
  cbn [rbind py_setdefault]. unfold py_getitem.
  rewrite dict_get_setdefault. cbn [rbind].
  now destruct (match dict_get (lit "metadata") d with Some x => x | None => JObj [] end).
Qed.

(** C6: when the provider's text decodes, the parsed result has a
    [metadata] dict whose [language] is the request's language unless the
    decoded object had set one, which is then kept; when the text does not
    decode, the result has the raw text as its [summary] and empty
    [issues], [suggestions], [automatic_fixes] and [docs_updates]. *)
Theorem parse_response_spec (w : world) (text : str) (lang : option str) :
  (forall v : json,
      json_loads w text = Some v ->
      exists md : dict,
        dict_get (lit "metadata") (parse_response w (JStr text) lang) = Some (JObj md) /\
        (declared_language v = None ->
         dict_get (lit "language") md = Some (language_value lang)) /\
        (forall l : json,
            declared_language v = Some l -> dict_get (lit "language") md = Some l)) /\
  (json_loads w text = None ->
   let parsed := parse_response w (JStr text) lang in
   dict_get (lit "summary") parsed = Some (JStr text) /\
   dict_get (lit "issues") parsed = Some (JArr []) /\
   dict_get (lit "suggestions") parsed = Some (JArr []) /\
   dict_get (lit "automatic_fixes") parsed = Some (JArr []) /\
   dict_get (lit "docs_updates") parsed = Some (JArr [])).
Proof.
  split.
  - intros v Hv.
    assert (Hwrap : forall e, parse_try w (JStr text) lang = Raise e ->
                              declared_language v = None ->
                              exists md : dict,
                                dict_get (lit "metadata") (parse_response w (JStr text) lang)
                                = Some (JObj md) /\
                                (declared_language v = None ->
                                 dict_get (lit "language") md = Some (language_value lang)) /\
                                (forall l : json, declared_language v = Some l ->
                                                  dict_get (lit "language") md = Some l)).
    { intros e He Hnone. unfold parse_response. rewrite He.
      exists [(lit "language", language_value lang)].
      split; [reflexivity|]. split; [reflexivity|].
      intros l Hl. rewrite Hnone in Hl. discriminate. }
    destruct v as [| b | z | f | s | items | d];
      try (apply (Hwrap AttributeError); [|reflexivity];
           unfold parse_try, py_json_loads; rewrite Hv; reflexivity).
    pose proof (parse_try_dict w text lang d Hv) as Htry.
    unfold declared_language, nested_get in *.
    destruct (dict_get (lit "metadata") d) as [x|] eqn:Emd.
    + destruct x as [| b | z | f | s | items | md0];
        try (apply (Hwrap AttributeError); [exact Htry | reflexivity]).
      unfold parse_response. rewrite Htry.
      exists (dict_setdefault (lit "language") (language_value lang) md0).
      split; [apply dict_get_set|].
      rewrite dict_get_setdefault.
      split; [intros H | intros l H]; rewrite H; reflexivity.
    + unfold parse_response. rewrite Htry.
      exists (dict_setdefault (lit "language") (language_value lang) []).
      split; [apply dict_get_set|].
      split; [reflexivity | discriminate].
  - intros Hnone. unfold parse_response, parse_try, py_json_loads. rewrite Hnone.
    cbn. repeat split.
Qed.

Lemma parse_response_spec_witness :
  (exists md : dict,
      dict_get (lit "metadata")
               (parse_response (answering summary_only) (JStr summary_only) (Some (lit "ruby")))
      = Some (JObj md) /\
      dict_get (lit "language") md = Some (JStr (lit "ruby"))) /\
  dict_get (lit "summary")
           (parse_response (answering (lit "not json")) (JStr (lit "not json")) None)
  = Some (JStr (lit "not json")).
Proof.
  split.
  - destruct (parse_response_spec (answering summary_only) summary_only (Some (lit "ruby")))
      as [Hdecoded _].
    destruct (Hdecoded (JObj [(lit "summary", JStr (lit "ok"))])) as [md [Hmd [Hlang _]]].
    + vm_compute. reflexivity.
    + exists md. split; [exact Hmd|]. apply Hlang. vm_compute. reflexivity.
  - destruct (parse_response_spec (answering (lit "not json")) (lit "not json") None)
      as [_ Hraw].
    destruct Hraw as [Hsummary _].
    + vm_compute. reflexivity.
    + exact Hsummary.
Defined.

(** ** The formatter *)

(** Evaluates the comparisons of literal keys in the goal. *)
Ltac eval_keys :=
  repeat match goal with
         | |- context [str_eqb (lit ?a) (lit ?b)] =>
             let r := eval vm_compute in (str_eqb (lit a) (lit b)) in
             change (str_eqb (lit a) (lit b)) with r
         end.

Lemma line_text_str (w : world) (l : LineRef) :
  py_str (py_repr w) (line_json l) = line_text l.
Proof. now destruct l. Qed.

Lemma format_issue_typed (w : world) (output : str) (n : Z) (i : Issue) :
  format_issue w output (n, issue_json i) = Ok (output ++ issue_text (n, i)).
Proof.
  unfold format_issue, issue_json, issue_text, py_get.
  cbn [dict_get]. eval_keys. cbn [rbind py_str]. now rewrite line_text_str.
Qed.

Lemma format_fix_typed (w : world) (output : str) (f : Fix) :
  format_fix w output (fix_json f) = Ok (output ++ fix_text f).
Proof.
  unfold format_fix, fix_json, fix_text, py_get.
  cbn [dict_get]. eval_keys. reflexivity.
Qed.

Lemma format_issues_typed (w : world) (l : list Issue) :
  forall (n : Z) (output : str),
    rfold (format_issue w) (enumerate n (map issue_json l)) output =
    Ok (output ++ concat (map issue_text (enumerate n l))).
Proof.
  induction l as [|i l IH]; intros n output.
  - simpl. now rewrite app_nil_r.
  - cbn [map enumerate rfold concat]. rewrite format_issue_typed. cbn [rbind].
    rewrite IH. now rewrite <- app_assoc.
Qed.

Lemma format_bullets_typed (w : world) (l : list str) :
  forall output : str,
    rfold (format_bullet w) (map JStr l) output =
    Ok (output ++ concat (map bullet_text l)).
Proof.
  induction l as [|s l IH]; intros output.
  - simpl. now rewrite app_nil_r.
  - cbn [map rfold concat]. unfold format_bullet at 1. cbn [rbind py_str].
    rewrite IH. unfold bullet_text at 2. now rewrite <- !app_assoc.
Qed.

Lemma format_fixes_typed (w : world) (l : list Fix) :
  forall output : str,
    rfold (format_fix w) (map fix_json l) output =
    Ok (output ++ concat (map fix_text l)).
Proof.
  induction l as [|f l IH]; intros output.
  - simpl. now rewrite app_nil_r.
  - cbn [map rfold concat]. rewrite format_fix_typed. cbn [rbind].
    rewrite IH. now rewrite <- app_assoc.
Qed.

(** One list section, when the key holds a list and the loop body is known
    to append [pieces]. *)
Lemma list_section_typed {A B : Type} (w : world) (analysis : dict) (key header : str)
    (items_of : list json -> list A) (body : str -> A -> result str)
    (enc : B -> json) (xs : list B) (pieces : str) (output : str) :
  dict_get key analysis = Some (JArr (map enc xs)) ->
  (forall out, rfold body (items_of (map enc xs)) out = Ok (out ++ pieces)) ->
  format_list_section analysis key header items_of body output =
  Ok (output ++ if nonempty xs then header ++ pieces ++ [NL] else []).
Proof.
  intros Hkey Hbody. unfold format_list_section, get_or_none, py_getitem.
  rewrite Hkey. destruct xs as [|x xs].
  - simpl. now rewrite app_nil_r.
  - cbn [map truthy rbind py_iter nonempty]. rewrite Hbody. cbn [rbind].
    now rewrite <- !app_assoc.
Qed.

Lemma document_unfold (a : AnalysisResult) :
  document a =
  section_text a Summary ++ if_shown a IssuesFound ++ if_shown a Suggestions ++
  if_shown a AutomaticFixes ++ if_shown a EstimatedEffort ++
  if_shown a DocumentationUpdates.
Proof.
  unfold document, SECTION_ORDER, if_shown. cbn [filter].
  change (shown a Summary) with true. cbv iota.
  destruct (shown a IssuesFound), (shown a Suggestions), (shown a AutomaticFixes),
    (shown a EstimatedEffort), (shown a DocumentationUpdates);
    cbn [map concat]; rewrite ?app_nil_r, ?app_nil_l; reflexivity.
Qed.

(** The formatter on a typed result: the shown sections, in order. *)
Lemma format_analysis_typed (w : world) (a : AnalysisResult) :
  format_analysis w (to_dict a) = Ok (document a).
Proof.
  rewrite document_unfold. unfold format_analysis.
  rewrite (list_section_typed w (to_dict a) (lit "issues") HDR_ISSUES (enumerate 1)
             (format_issue w) issue_json (issues a)
             (concat (map issue_text (enumerate 1 (issues a)))));
    [| unfold to_dict; cbn [dict_get]; eval_keys; reflexivity
     | intros out; apply format_issues_typed ].
  cbn [rbind].
  rewrite (list_section_typed w (to_dict a) (lit "suggestions") HDR_SUGGESTIONS
             (fun l => l) (format_bullet w) JStr (suggestions a)
             (concat (map bullet_text (suggestions a))));
    [| unfold to_dict; cbn [dict_get]; eval_keys; reflexivity
     | intros out; apply format_bullets_typed ].
  cbn [rbind].
  rewrite (list_section_typed w (to_dict a) (lit "automatic_fixes") HDR_FIXES
             (fun l => l) (format_fix w) fix_json (automatic_fixes a)
             (concat (map fix_text (automatic_fixes a))));
    [| unfold to_dict; cbn [dict_get]; eval_keys; reflexivity
     | intros out; apply format_fixes_typed ].
  cbn [rbind].
  assert (Heffort :
            get_or_none (lit "effort_estimate") (to_dict a) =
            match effort_estimate a with Some e => JStr e | None => JNull end).
  { unfold get_or_none, to_dict. cbn [dict_get]. eval_keys. reflexivity. }
  assert (Hitem :
            py_getitem (to_dict a) (lit "effort_estimate") =
            Ok (match effort_estimate a with Some e => JStr e | None => JNull end)).
  { unfold py_getitem, to_dict. cbn [dict_get]. eval_keys. reflexivity. }
  assert (Hsummary :
            dict_get (lit "summary") (to_dict a) = Some (JStr (summary a))).
  { unfold to_dict. cbn [dict_get]. eval_keys. reflexivity. }
  rewrite Heffort, Hitem, Hsummary. cbn [py_str].
  assert (Hdocs : forall output : str,
             format_list_section (to_dict a) (lit "docs_updates") HDR_DOCS
               (fun l => l) (format_bullet w) output =
             Ok (output ++ if_shown a DocumentationUpdates)).
  { intros output.
    apply (list_section_typed w (to_dict a) (lit "docs_updates") HDR_DOCS
             (fun l => l) (format_bullet w) JStr (docs_updates a)
             (concat (map bullet_text (docs_updates a)))).
    - unfold to_dict. cbn [dict_get]. eval_keys. reflexivity.
    - intros out. apply format_bullets_typed. }
  unfold if_shown, shown, section_text.
  destruct (effort_estimate a) as [[|c e]|];
    cbn [truthy rbind py_str nonempty]; rewrite Hdocs; cbn [rbind];
    unfold if_shown, shown, section_text; cbn [app];
    rewrite <- ?app_assoc; reflexivity.
Qed.

(** The formatted text of the result with no list entries but an effort
    estimate has two sections, not one. *)
Lemma effort_section_is_kept :
  issues effort_only = [] /\ suggestions effort_only = [] /\
  automatic_fixes effort_only = [] /\ docs_updates effort_only = [] /\
  format_analysis offline (to_dict effort_only) =
    Ok (section_text effort_only Summary ++ section_text effort_only EstimatedEffort) /\
  format_analysis offline (to_dict effort_only) <> Ok (section_text effort_only Summary).
Proof.
  repeat split. vm_compute. discriminate.
Qed.

(** C7, amended: the formatted text of an analysis result is made of its
    shown sections in the fixed order Summary, Issues Found, Suggestions,
    Automatic Fixes, Estimated Effort, Documentation Updates; Summary is
    always shown and a list section is shown exactly when its list is not
    empty.  When the four lists are empty the text is the Summary section,
    followed by the Estimated Effort section when the estimate is a
    non-empty text. *)
Theorem format_sections (w : world) (a : AnalysisResult) :
  format_analysis w (to_dict a) = Ok (document a) /\
  shown a Summary = true /\
  shown a IssuesFound = nonempty (issues a) /\
  shown a Suggestions = nonempty (suggestions a) /\
  shown a AutomaticFixes = nonempty (automatic_fixes a) /\
  shown a DocumentationUpdates = nonempty (docs_updates a) /\
  (issues a = [] -> suggestions a = [] -> automatic_fixes a = [] ->
   docs_updates a = [] ->
   document a = section_text a Summary ++ if_shown a EstimatedEffort).
Proof.
  split; [apply format_analysis_typed|]. repeat (split; [reflexivity|]).
  intros Hi Hs Hf Hd. rewrite document_unfold. unfold if_shown, shown.
  rewrite Hi, Hs, Hf, Hd. cbn [nonempty app]. now rewrite app_nil_r.
Qed.

Lemma format_sections_witness :
  format_analysis offline (to_dict effort_only) = Ok (document effort_only) /\
  document effort_only =
    section_text effort_only Summary ++ section_text effort_only EstimatedEffort.
Proof.
  destruct (format_sections offline effort_only) as [Hdoc [_ [_ [_ [_ [_ Hempty]]]]]].
  split; [exact Hdoc|].
  apply Hempty; reflexivity.
Defined.

(** ** What can be encoded and serialised *)

Lemma lit_small (s : string) : Forall (fun c => c < 256) (lit s).
Proof.
  unfold lit. induction s as [|a s IH]; [constructor|].
  cbn [list_ascii_of_string map]. constructor; [apply N_ascii_bounded | exact IH].
Qed.

Lemma encodable_lit (s : string) : encodable (lit s) = true.
Proof.
  unfold encodable. apply forallb_forall. intros c Hc.
  pose proof (proj1 (Forall_forall _ _) (lit_small s) c Hc) as Hsmall.
  unfold surrogate. apply negb_true_iff, andb_false_iff. left.
  apply N.leb_gt. simpl in Hsmall. lia.
Qed.

Lemma encodable_app (a b : str) : encodable (a ++ b) = encodable a && encodable b.
Proof. unfold encodable. apply forallb_app. Qed.

Lemma encodable_str_of_int (z : Z) : encodable (str_of_int z) = true.
Proof. apply encodable_lit. Qed.

Lemma encodable_concat {A : Type} (f : A -> str) (l : list A) :
  (forall x, In x l -> encodable (f x) = true) ->
  encodable (concat (map f l)) = true.
Proof.
  induction l as [|x l IH]; intros H; [reflexivity|].
  cbn [map concat]. rewrite encodable_app, (H x (or_introl eq_refl)).
  apply IH. intros y Hy. apply H. now right.
Qed.

Lemma in_enumerate {A : Type} (l : list A) :
  forall (k n : Z) (x : A), In (n, x) (enumerate k l) -> In x l.
Proof.
  induction l as [|y l IH]; intros k n x H; [destruct H|].
  destruct H as [H | H]; [injection H as _ ->; now left | right; eapply IH; exact H].
Qed.

(** Proves that a text put together from literals, numbers and texts
    already known to be encodable is encodable. *)
Ltac encodable_text :=
  repeat rewrite encodable_app;
  repeat (apply andb_true_intro; split);
  try apply encodable_lit; try apply encodable_str_of_int;
  try reflexivity; try assumption.

(** The formatted text of the heuristic's result has no lone surrogate. *)
Lemma simulated_document_encodable (code : str) :
  encodable (document (simulated_result code)) = true.
Proof.
  rewrite document_unfold. unfold if_shown.
  set (hits := matching 1 (splitlines code)).
  assert (Hissues : encodable (section_text (simulated_result code) IssuesFound) = true).
  { cbn [section_text]. rewrite !encodable_app. apply andb_true_intro.
    split; [reflexivity|]. apply andb_true_intro. split; [|reflexivity].
    apply encodable_concat. intros [n i] Hin. apply in_enumerate in Hin.
    cbn [issues simulated_result] in Hin. apply in_map_iff in Hin as [k [<- _]].
    unfold issue_text. cbn [issue_title issue_line issue_severity issue_description
                            line_text severity_text].
    encodable_text. }
  assert (Hsugg : encodable (section_text (simulated_result code) Suggestions) = true).
  { cbn [section_text]. rewrite !encodable_app. apply andb_true_intro.
    split; [reflexivity|]. apply andb_true_intro. split; [|reflexivity].
    apply encodable_concat. intros x Hin.
    cbn [suggestions simulated_result] in Hin. apply in_map_iff in Hin as [k [<- _]].
    unfold bullet_text. encodable_text. }
  assert (Hfixes : encodable (section_text (simulated_result code) AutomaticFixes) = true).
  { cbn [section_text]. rewrite !encodable_app. apply andb_true_intro.
    split; [reflexivity|]. apply andb_true_intro. split; [|reflexivity].
    apply encodable_concat. intros x Hin.
    cbn [automatic_fixes simulated_result] in Hin. apply in_map_iff in Hin as [k [<- _]].
    reflexivity. }
  assert (Hsummary : encodable (section_text (simulated_result code) Summary) = true).
  { cbn [section_text summary simulated_result]. fold hits.
    destruct (nonempty hits); reflexivity. }
  rewrite !encodable_app, Hsummary.
  destruct (shown (simulated_result code) IssuesFound); rewrite ?Hissues;
    destruct (shown (simulated_result code) Suggestions); rewrite ?Hsugg;
    destruct (shown (simulated_result code) AutomaticFixes); rewrite ?Hfixes;
    reflexivity.
Qed.

Lemma forallb_map_const {A B : Type} (p : B -> bool) (g : A -> B) (l : list A) :
  (forall x, p (g x) = true) -> forallb p (map g l) = true.
Proof.
  intros H. induction l as [|x l IH]; [reflexivity|].
  cbn [map forallb]. now rewrite H, IH.
Qed.

(** The heuristic's dict has no float and no lone surrogate. *)
Lemma simulated_serialisable (prompt : str) :
  finite_json (JObj (simulated prompt)) = true /\
  encodable_json (JObj (simulated prompt)) = true.
Proof.
  unfold simulated. unfold scan. rewrite scan_fold.
  cbn [f_issues f_suggestions f_auto_fixes no_findings app].
  set (hits := matching 1 (splitlines (extract_code prompt))).
  assert (Hfi : forallb finite_json (map issue_at hits) = true)
    by (apply forallb_map_const; reflexivity).
  assert (Hfs : forallb finite_json (map (fun _ : Z => the_suggestion) hits) = true)
    by (apply forallb_map_const; reflexivity).
  assert (Hff : forallb finite_json (map (fun _ : Z => the_fix) hits) = true)
    by (apply forallb_map_const; reflexivity).
  assert (Hei : forallb encodable_json (map issue_at hits) = true)
    by (apply forallb_map_const; reflexivity).
  assert (Hes : forallb encodable_json (map (fun _ : Z => the_suggestion) hits) = true)
    by (apply forallb_map_const; reflexivity).
  assert (Hef : forallb encodable_json (map (fun _ : Z => the_fix) hits) = true)
    by (apply forallb_map_const; reflexivity).
  split.
  - cbn [finite_json forallb snd]. rewrite Hfi, Hfs, Hff. reflexivity.
  - cbn [encodable_json forallb fst snd]. rewrite Hei, Hes, Hef.
    destruct (map issue_at hits); reflexivity.
Qed.

(** The body of the JSON response of a request answered by the heuristic
    is one [JSONResponse] accepts. *)
Lemma heuristic_content_serialisable (prompt : str) :
  json_response
    (JObj [(lit "formatted_analysis",
            JStr (document (simulated_result (extract_code prompt))));
           (lit "raw", JObj (simulated prompt))]) =
  ret (JSONResponse
         (JObj [(lit "formatted_analysis",
                 JStr (document (simulated_result (extract_code prompt))));
                (lit "raw", JObj (simulated prompt))])).
Proof.
  destruct (simulated_serialisable prompt) as [Hfinite Hencodable].
  unfold json_response.
  assert (Hf : finite_json
                 (JObj [(lit "formatted_analysis",
                         JStr (document (simulated_result (extract_code prompt))));
                        (lit "raw", JObj (simulated prompt))]) = true).
  { cbn [finite_json forallb snd] in *. now rewrite Hfinite. }
  assert (He : encodable_json
                 (JObj [(lit "formatted_analysis",
                         JStr (document (simulated_result (extract_code prompt))));
                        (lit "raw", JObj (simulated prompt))]) = true).
  { cbn [encodable_json forallb fst snd] in *.
    rewrite simulated_document_encodable, Hencodable. reflexivity. }
  now rewrite Hf, He.
Qed.

(** ** The handler *)

Lemma simulated_typed (prompt : str) :
  simulated prompt = to_dict (simulated_result (extract_code prompt)).
Proof.
  unfold simulated, to_dict, simulated_result.
  rewrite scan_issues. unfold scan. rewrite scan_fold.
  cbn [f_issues f_suggestions f_auto_fixes no_findings app summary issues suggestions
       automatic_fixes effort_estimate docs_updates metadata map fst snd].
  rewrite !map_map.
  destruct (matching 1 (splitlines (extract_code prompt))); reflexivity.
Qed.

(** The heuristic's own result always goes through the formatter. *)
Lemma simulated_is_formatted (w : world) (prompt : str) :
  format_analysis w (simulated prompt) =
  Ok (document (simulated_result (extract_code prompt))).
Proof. rewrite simulated_typed. apply format_analysis_typed. Qed.

(** [call_llm] when the call to the server ends in the [except] branch. *)
Lemma call_llm_falls_back (w : world) (prompt : str) (st : state) :
  falls_back w prompt = true ->
  call_llm w prompt st =
  (Ok (JStr (simulate_analysis w prompt)),
   {| files := files st;
      trace := trace st ++ [RemoteCall prompt; HeuristicCall prompt] |}).
Proof.
  unfold falls_back, call_llm, post_prompt.
  unfold try_except, bind, emit, ret, raise, lift.
  intros H.
  destruct (llm_server w prompt) as [[| b | z | f | s | items | d]|];
    try discriminate; cbn [py_get files trace]; now rewrite <- app_assoc.
Qed.

(** Decoding the heuristic's text gives back the heuristic's dict, when the
    decoder inverts the encoder on it. *)
Lemma parse_simulated (w : world) (prompt : str) (lang : option str) :
  json_loads w (simulate_analysis w prompt) = Some (JObj (simulated prompt)) ->
  parse_response w (JStr (simulate_analysis w prompt)) lang = simulated prompt.
Proof.
  intros H. unfold parse_response. rewrite (parse_try_dict w _ lang _ H).
  unfold simulated, dict_setdefault. cbn [dict_get dict_set]. eval_keys. reflexivity.
Qed.

(** The handler's answer when the heuristic was used and no file was asked
    for. *)
Lemma analyze_code_fallback (w : world) (req : CodeRequest) (st : state) :
  nonempty (strip (code req)) = true ->
  is_true (request_pdf req) = false ->
  falls_back w (build_prompt (code req) (language req)) = true ->
  json_loads w (simulate_analysis w (build_prompt (code req) (language req))) =
    Some (JObj (simulated (build_prompt (code req) (language req)))) ->
  fst (analyze_code w req st) =
  Ok (JSONResponse
        (JObj [(lit "formatted_analysis",
                JStr (document (simulated_result
                                  (extract_code (build_prompt (code req) (language req))))));
               (lit "raw", JObj (simulated (build_prompt (code req) (language req))))])).
Proof.
  intros Hcode Hpdf Hfall Hloads. unfold analyze_code.
  destruct (strip (code req)) as [|c s]; [discriminate|].
  unfold bind. rewrite (call_llm_falls_back w _ st Hfall).
  rewrite (parse_simulated w _ (language req) Hloads).
  unfold lift. rewrite simulated_is_formatted, Hpdf.
  now rewrite heuristic_content_serialisable.
Qed.

(** C5: on every prompt the heuristic returns the [json.dumps] text of a
    dict with the seven keys of an analysis result; and when the call to
    the model server fails, the JSON response's [raw.metadata.analysis_time]
    is ["simulated"].  The second part is for a request whose code passes
    validation and that asks for no file, with a decoder that gives back
    the heuristic's dict from the heuristic's text. *)
Theorem heuristic_result (w : world) :
  (forall prompt : str,
      exists fields : dict,
        simulate_analysis w prompt = json_dumps (py_repr w) (JObj fields) /\
        map fst fields = RESULT_KEYS) /\
  (forall (req : CodeRequest) (st : state),
      nonempty (strip (code req)) = true ->
      is_true (request_pdf req) = false ->
      falls_back w (build_prompt (code req) (language req)) = true ->
      json_loads w (simulate_analysis w (build_prompt (code req) (language req))) =
        Some (JObj (simulated (build_prompt (code req) (language req)))) ->
      exists raw : dict,
        raw_of (fst (analyze_code w req st)) = Some raw /\
        http_status (fst (analyze_code w req st)) = 200%Z /\
        map fst raw = RESULT_KEYS /\
        nested_get (lit "metadata") (lit "analysis_time") raw =
          Some (JStr (lit "simulated"))).
Proof.
  split.
  - intros prompt. exists (simulated prompt). split; reflexivity.
  - intros req st Hcode Hpdf Hfall Hloads.
    exists (simulated (build_prompt (code req) (language req))).
    rewrite (analyze_code_fallback w req st Hcode Hpdf Hfall Hloads).
    repeat split.
Qed.

Lemma heuristic_result_witness :
  exists raw : dict,
    raw_of (fst (analyze_code offline ruby_request initial)) = Some raw /\
    http_status (fst (analyze_code offline ruby_request initial)) = 200%Z /\
    map fst raw = RESULT_KEYS /\
    nested_get (lit "metadata") (lit "analysis_time") raw = Some (JStr (lit "simulated")).
Proof.
  destruct (heuristic_result offline) as [_ Hfallback].
  apply (Hfallback ruby_request initial); vm_compute; reflexivity.
Defined.

(** C10: the heuristic's [metadata.language] is always ["python"], and a
    request answered by the heuristic gets [raw.metadata.language] equal to
    ["python"] whatever language it declared: the parser leaves a language
    that is already there. *)
Theorem heuristic_language_is_python (w : world) :
  (forall prompt : str,
      nested_get (lit "metadata") (lit "language") (simulated prompt) =
        Some (JStr (lit "python"))) /\
  (forall (req : CodeRequest) (st : state),
      nonempty (strip (code req)) = true ->
      falls_back w (build_prompt (code req) (language req)) = true ->
      json_loads w (simulate_analysis w (build_prompt (code req) (language req))) =
        Some (JObj (simulated (build_prompt (code req) (language req)))) ->
      exists (raw_response : json) (st' : state),
        call_llm w (build_prompt (code req) (language req)) st = (Ok raw_response, st') /\
        nested_get (lit "metadata") (lit "language")
                   (parse_response w raw_response (language req)) =
          Some (JStr (lit "python")) /\
        (is_true (request_pdf req) = false ->
         exists raw : dict,
           raw_of (fst (analyze_code w req st)) = Some raw /\
           nested_get (lit "metadata") (lit "language") raw = Some (JStr (lit "python")))).
Proof.
  split; [reflexivity|].
  intros req st Hcode Hfall Hloads.
  eexists. eexists. split; [apply (call_llm_falls_back w _ st Hfall)|].
  rewrite (parse_simulated w _ (language req) Hloads).
  split; [reflexivity|].
  intros Hpdf. exists (simulated (build_prompt (code req) (language req))).
  rewrite (analyze_code_fallback w req st Hcode Hpdf Hfall Hloads).
  split; reflexivity.
Qed.

Lemma heuristic_language_is_python_witness :
  language ruby_request = Some (lit "ruby") /\
  exists raw : dict,
    raw_of (fst (analyze_code offline ruby_request initial)) = Some raw /\
    nested_get (lit "metadata") (lit "language") raw = Some (JStr (lit "python")).
Proof.
  split; [reflexivity|].
  destruct (heuristic_language_is_python offline) as [_ Hreq].
  destruct (Hreq ruby_request initial) as [raw_response [st' [_ [_ Hraw]]]];
    [vm_compute; reflexivity ..|].
  apply Hraw. reflexivity.
Defined.

Lemma read_file_written (path : str) (data : file_data) (fs : list (str * file_data)) :
  read_file path ((path, data) :: fs) = Some data.
Proof. simpl. now rewrite str_eqb_refl. Qed.




(** C1: a provider answer that is valid JSON but lists its issues as
    sentences, or holds a number under ["issues"], makes the formatter
    raise outside every [try]; the exception leaves the handler and the
    caller gets status 500, although the code is not blank and no file is
    asked for. *)
Theorem malformed_answer_escapes :
  nonempty (strip (code ruby_request)) = true /\
  is_true (request_pdf ruby_request) = false /\
  json_loads (answering issues_are_sentences) issues_are_sentences =
    Some (JObj [(lit "summary", JStr (lit "ok"));
                (lit "issues", JArr [JStr (lit "Division by zero on line 2")])]) /\
  fst (serve (answering issues_are_sentences) ruby_request) = Raise AttributeError /\
  http_status (fst (serve (answering issues_are_sentences) ruby_request)) = 500%Z /\
  fst (serve (answering issues_is_a_number) ruby_request) = Raise TypeError /\
  http_status (fst (serve (answering issues_is_a_number) ruby_request)) = 500%Z.
Proof. vm_compute. repeat split. Qed.

(** C9: for a code with a docstring the heuristic scans only the text
    ahead of the first triple quote of the code, so it misses the division
    by zero on the third line. *)
Theorem docstring_cuts_extraction :
  extract_code (build_prompt docstring_code (Some (lit "python"))) =
    lit "def f(a):" ++ [NL] ++ lit "    " /\
  extract_code (build_prompt docstring_code (Some (lit "python"))) <> docstring_code /\
  f_issues (scan docstring_code) = [issue_at 3] /\
  dict_get (lit "issues") (simulated (build_prompt docstring_code (Some (lit "python")))) =
    Some (JArr []).
Proof. vm_compute. repeat split. discriminate. Qed.

(** C3: the code with a docstring has exactly one line that passes the
    test, its third; the heuristic, given the prompt built from that code,
    reports no issue at all.  The scan never sees the line: the text taken
    from the prompt ends at the docstring's opening quotes. *)
Theorem single_match_lost_behind_docstring :
  splitlines docstring_code =
    [lit "def f(a):"; lit "    " ++ TRIPLE_QUOTE ++ lit "Divide." ++ TRIPLE_QUOTE] ++
    lit "    return a / 0" :: [] /\
  zero_division (lit "    return a / 0") = true /\
  zero_division (lit "def f(a):") = false /\
  zero_division (lit "    " ++ TRIPLE_QUOTE ++ lit "Divide." ++ TRIPLE_QUOTE) = false /\
  dict_get (lit "issues") (simulated (build_prompt docstring_code (Some (lit "python")))) =
    Some (JArr []) /\
  dict_get (lit "issues") (simulated (build_prompt docstring_code None)) = Some (JArr []).
Proof. vm_compute. repeat split. Qed.

(** C4: the code [ok] has no line that passes the test, yet with a
    language that holds the delimiter and a division by zero the heuristic
    reports an issue on line 1 and its summary lacks the no-issues
    sentence: the text it scans comes from the language, not from the
    code. *)
Theorem language_delimiter_makes_an_issue :
  forallb (fun l => negb (documented_pattern l)) (splitlines (lit "ok")) = true /\
  extract_code (build_prompt (lit "ok") (Some delimiter_language)) = lit "q/0" /\
  dict_get (lit "issues") (simulated (build_prompt (lit "ok") (Some delimiter_language))) =
    Some (JArr [issue_at 1]) /\
  dict_get (lit "summary") (simulated (build_prompt (lit "ok") (Some delimiter_language))) =
    Some (JStr SUMMARY_BASE).
Proof. vm_compute. repeat split. Qed.

(** ** Which answers the formatter accepts *)

Lemma format_issues_ok (w : world) (items : list json) :
  forallb is_dict items = true ->
  forall (n : Z) (output : str),
    exists text : str, rfold (format_issue w) (enumerate n items) output = Ok text.
Proof.
  induction items as [|item items IH]; intros H n output.
  - now exists output.
  - simpl in H. apply andb_true_iff in H as [Hitem Hrest].
    destruct item; try discriminate.
    cbn [enumerate rfold format_issue py_get rbind]. apply (IH Hrest).
Qed.

Lemma format_fixes_ok (w : world) (items : list json) :
  forallb is_dict items = true ->
  forall output : str,
    exists text : str, rfold (format_fix w) items output = Ok text.
Proof.
  induction items as [|item items IH]; intros H output.
  - now exists output.
  - simpl in H. apply andb_true_iff in H as [Hitem Hrest].
    destruct item; try discriminate.
    cbn [rfold format_fix py_get rbind]. apply (IH Hrest).
Qed.

Lemma format_bullets_ok (w : world) (items : list json) :
  forall output : str,
    exists text : str, rfold (format_bullet w) items output = Ok text.
Proof.
  induction items as [|item items IH]; intros output.
  - now exists output.
  - cbn [rfold format_bullet rbind]. apply IH.
Qed.

Lemma dict_section_ok {A : Type} (analysis : dict) (key header : str)
    (items_of : list json -> list A) (body : str -> A -> result str) (output : str) :
  dicts_or_falsy (get_or_none key analysis) = true ->
  (forall items out, forallb is_dict items = true ->
                     exists text, rfold body (items_of items) out = Ok text) ->
  exists text : str,
    format_list_section analysis key header items_of body output = Ok text.
Proof.
  intros Hshape Hbody. unfold format_list_section, py_getitem, get_or_none in *.
  destruct (dict_get key analysis) as [v|]; [|now exists output].
  destruct (truthy v) eqn:Etruthy; [|now exists output].
  destruct v as [| b | z | f | s | l | d]; simpl in Hshape, Etruthy;
    try (rewrite Etruthy in Hshape; discriminate); try discriminate.
  cbn [rbind py_iter].
  destruct (Hbody l (output ++ header) Hshape) as [text Htext].
  rewrite Htext. now exists (text ++ [NL]).
Qed.

Lemma bullet_section_ok (w : world) (analysis : dict) (key header : str) (output : str) :
  iterable_or_falsy (get_or_none key analysis) = true ->
  exists text : str,
    format_list_section analysis key header (fun l => l) (format_bullet w) output = Ok text.
Proof.
  intros Hshape. unfold format_list_section, py_getitem, get_or_none in *.
  destruct (dict_get key analysis) as [v|]; [|now exists output].
  destruct (truthy v) eqn:Etruthy; [|now exists output].
  destruct v as [| b | z | f | s | l | d]; simpl in Hshape, Etruthy;
    try (rewrite Etruthy in Hshape; discriminate); try discriminate;
    cbn [rbind py_iter];
    match goal with
    | |- context [rfold (format_bullet w) ?items ?out] =>
        destruct (format_bullets_ok w items out) as [text Htext]
    end;
    rewrite Htext; now exists (text ++ [NL]).
Qed.

(** The formatter returns on every analysis whose list keys hold what its
    loops expect. *)
Lemma well_shaped_is_formatted (w : world) (analysis : dict) :
  well_shaped analysis = true ->
  exists formatted : str, format_analysis w analysis = Ok formatted.
Proof.
  unfold well_shaped. rewrite !andb_true_iff. intros [[[Hi Hs] Hf] Hd].
  unfold format_analysis.
  match goal with
  | |- context [format_list_section analysis (lit "issues") ?h ?io ?b ?out] =>
      destruct (dict_section_ok analysis (lit "issues") h io b out Hi) as [o1 H1];
        [intros items o Hitems; apply (format_issues_ok w items Hitems)|]
  end.
  rewrite H1. cbn [rbind].
  destruct (bullet_section_ok w analysis (lit "suggestions") HDR_SUGGESTIONS o1 Hs)
    as [o2 H2].
  rewrite H2. cbn [rbind].
  destruct (dict_section_ok analysis (lit "automatic_fixes") HDR_FIXES (fun l => l)
              (format_fix w) o2 Hf) as [o3 H3];
    [intros items o Hitems; apply (format_fixes_ok w items Hitems)|].
  rewrite H3. cbn [rbind].
  assert (H4 : exists o4,
             (if truthy (get_or_none (lit "effort_estimate") analysis)
              then rbind (py_getitem analysis (lit "effort_estimate"))
                         (fun value => Ok (o3 ++ HDR_EFFORT ++
                                           py_str (py_repr w) value ++ [NL; NL]))
              else Ok o3) = Ok o4).
  { unfold get_or_none, py_getitem.
    destruct (dict_get (lit "effort_estimate") analysis) as [v|].
    - destruct (truthy v); eexists; reflexivity.
    - eexists; reflexivity. }
  destruct H4 as [o4 H4]. rewrite H4. cbn [rbind].
  destruct (bullet_section_ok w analysis (lit "docs_updates") HDR_DOCS o4 Hd) as [o5 H5].
  rewrite H5. now exists o5.
Qed.

(** A request that passes validation and asks for no file is answered with
    a JSON response whenever the parsed answer is well shaped and the body
    is one [JSONResponse] accepts. *)
Lemma well_shaped_is_answered (w : world) (req : CodeRequest) (st : state)
    (raw_response : json) (st' : state) :
  nonempty (strip (code req)) = true ->
  is_true (request_pdf req) = false ->
  call_llm w (build_prompt (code req) (language req)) st = (Ok raw_response, st') ->
  well_shaped (parse_response w raw_response (language req)) = true ->
  exists formatted : str,
    format_analysis w (parse_response w raw_response (language req)) = Ok formatted /\
    (serialisable
       (JObj [(lit "formatted_analysis", JStr formatted);
              (lit "raw", JObj (parse_response w raw_response (language req)))]) = true ->
     analyze_code w req st =
     (Ok (JSONResponse
            (JObj [(lit "formatted_analysis", JStr formatted);
                   (lit "raw", JObj (parse_response w raw_response (language req)))])),
      st')).
Proof.
  intros Hcode Hpdf Hcall Hshape.
  destruct (well_shaped_is_formatted w _ Hshape) as [formatted Hfmt].
  exists formatted. split; [exact Hfmt|]. intros Hser.
  apply andb_true_iff in Hser as [Hfinite Hencodable].
  unfold analyze_code.
  destruct (strip (code req)) as [|c s]; [discriminate|].
  unfold bind, lift. rewrite Hcall, Hfmt, Hpdf.
  unfold json_response. now rewrite Hfinite, Hencodable.
Qed.

(** A well-shaped answer is not enough: the answer
    [{"summary": "ok", "score": NaN}] decodes and is formatted, and then
    [JSONResponse] refuses the body; so does it refuse a summary that is a
    lone surrogate. *)
Example well_shaped_answer_not_serialised :
  json_loads (answering nan_score) nan_score =
    Some (JObj [(lit "summary", JStr (lit "ok")); (lit "score", JFloat nan)]) /\
  formatted_text (answering nan_score) ruby_request initial =
    Ok (HDR_SUMMARY ++ lit "ok" ++ [NL; NL]) /\
  fst (serve (answering nan_score) ruby_request) = Raise ValueError /\
  http_status (fst (serve (answering nan_score) ruby_request)) = 500%Z /\
  fst (serve (answering surrogate_summary) ruby_request) = Raise UnicodeEncodeError.
Proof. vm_compute. repeat split. Qed.

(** The dict of the [except] branch is well shaped, so an answer that does
    not decode never makes the formatter raise. *)
Lemma wrap_raw_well_shaped (raw_response : json) (lang : option str) :
  well_shaped (wrap_raw raw_response lang) = true.
Proof. reflexivity. Qed.

(** [call_llm] never raises. *)
Lemma call_llm_returns (w : world) (prompt : str) (st : state) :
  exists (raw_response : json) (st' : state),
    call_llm w prompt st = (Ok raw_response, st').
Proof.
  unfold call_llm, post_prompt. unfold try_except, bind, emit, ret, raise, lift.
  destruct (llm_server w prompt) as [[| b | z | f | s | items | d]|];
    cbn [py_get]; eexists; eexists; reflexivity.
Qed.

(** ** Getting the code back from the prompt *)

Lemma startswith_quotes_long (x y : str) :
  (3 <= length x)%nat ->
  startswith TRIPLE_QUOTE (x ++ y) = startswith TRIPLE_QUOTE x.
Proof.
  unfold TRIPLE_QUOTE.
  destruct x as [|a [|b [|c x]]]; cbn [length startswith app]; try lia. reflexivity.
Qed.

Lemma startswith_quotes_other (x : str) (c : char) (y : str) :
  c <> QUOTE ->
  startswith TRIPLE_QUOTE (x ++ c :: y) = startswith TRIPLE_QUOTE x.
Proof.
  intros Hc. assert (E : (QUOTE =? c) = false) by (apply N.eqb_neq; congruence).
  unfold TRIPLE_QUOTE.
  destruct x as [|a [|b [|d x]]]; cbn [startswith app];
    rewrite ?E, ?andb_false_r; reflexivity.
Qed.

Lemma contains_quotes_other (x : str) (c : char) (y : str) :
  c <> QUOTE ->
  contains TRIPLE_QUOTE (x ++ c :: y) = contains TRIPLE_QUOTE x || contains TRIPLE_QUOTE y.
Proof.
  intros Hc. induction x as [|a x IH].
  - assert (E : (QUOTE =? c) = false) by (apply N.eqb_neq; congruence).
    unfold TRIPLE_QUOTE. cbn [app contains startswith]. now rewrite E.
  - change ((a :: x) ++ c :: y) with (a :: (x ++ c :: y)).
    cbn [contains]. rewrite IH.
    change (a :: (x ++ c :: y)) with ((a :: x) ++ c :: y).
    rewrite (startswith_quotes_other (a :: x) c y Hc). now rewrite orb_assoc.
Qed.

Lemma contains_false_startswith (sub a s : str) :
  contains sub (a ++ s) = false -> startswith sub s = false.
Proof.
  intros H. apply contains_suffix in H. destruct s; simpl in H.
  - now apply orb_false_iff in H.
  - now apply orb_false_iff in H.
Qed.

Lemma split_go_skip (sep : str) (p : str) :
  forall (cur rest : str),
    split_go sep (length p) cur (p ++ rest) = split_go sep O cur rest.
Proof.
  induction p as [|c p IH]; intros cur rest; [reflexivity|].
  simpl. apply IH.
Qed.

(** The first piece of a split: everything before the first occurrence of
    the separator. *)
Lemma split_go_first (sep : str) (pre : str) :
  forall (cur tail : str),
    sep <> [] ->
    (forall a b, pre = a ++ b -> b <> [] -> startswith sep (b ++ sep ++ tail) = false) ->
    split_go sep O cur (pre ++ sep ++ tail) = (rev cur ++ pre) :: split_go sep O [] tail.
Proof.
  induction pre as [|c pre IH]; intros cur tail Hsep Hfirst.
  - destruct sep as [|s sep]; [congruence|].
    rewrite app_nil_r. change ([] ++ (s :: sep) ++ tail) with (s :: (sep ++ tail)).
    cbn [split_go].
    assert (E : startswith (s :: sep) (s :: sep ++ tail) = true).
    { apply startswith_iff. now exists tail. }
    rewrite E. cbn [length pred]. now rewrite split_go_skip.
  - change ((c :: pre) ++ sep ++ tail) with (c :: (pre ++ sep ++ tail)).
    cbn [split_go].
    assert (E : startswith sep (c :: pre ++ sep ++ tail) = false).
    { apply (Hfirst [] (c :: pre)); [reflexivity | discriminate]. }
    rewrite E, IH; [|exact Hsep|].
    + simpl. now rewrite <- app_assoc.
    + intros a b Hab Hb. apply (Hfirst (c :: a) b); [now rewrite Hab | exact Hb].
Qed.

Lemma build_prompt_shape (code : str) (lang : option str) :
  build_prompt code lang =
  prompt_header lang ++ TRIPLE_QUOTE ++ (code ++ TRIPLE_QUOTE ++ [NL]).
Proof.
  unfold build_prompt, prompt_header. now rewrite <- !app_assoc.
Qed.

Lemma header_without_quotes (lang : option str) :
  contains TRIPLE_QUOTE (format_opt lang) = false ->
  forall a b, prompt_header lang = a ++ b -> b <> [] ->
              forall tail, startswith TRIPLE_QUOTE (b ++ tail) = false.
Proof.
  intros Hlang a b Hab Hb tail.
  destruct (exists_last Hb) as [b' [x Hb']]. subst b.
  unfold prompt_header in Hab. rewrite !app_assoc in Hab.
  apply app_inj_tail in Hab as [Hbody Hx]. subst x.
  rewrite <- app_assoc. change ([NL] ++ tail) with (NL :: tail).
  rewrite startswith_quotes_other by discriminate.
  apply (contains_false_startswith TRIPLE_QUOTE a b').
  rewrite <- Hbody, <- !app_assoc.
  change (contains TRIPLE_QUOTE
            ((NL :: lit "You are a senior software engineer and code reviewer. Analyze the")
               ++ SPACE :: (format_opt lang ++ SPACE ::
                  (lit "code and return a JSON object ONLY:" ++ [NL] ++
                   lit "- summary, issues, suggestions, automatic_fixes, effort_estimate, docs_updates, metadata." ++
                   [NL] ++ lit "CODE:"))) = false).
  rewrite !contains_quotes_other by discriminate.
  rewrite Hlang. reflexivity.
Qed.

Lemma code_without_quotes (code : str) :
  contains TRIPLE_QUOTE (code ++ [QUOTE; QUOTE]) = false ->
  forall a b, code = a ++ b -> b <> [] ->
              startswith TRIPLE_QUOTE (b ++ TRIPLE_QUOTE ++ [NL]) = false.
Proof.
  intros Hcode a b Hab Hb. subst code. rewrite <- app_assoc in Hcode.
  apply contains_false_startswith in Hcode.
  change (TRIPLE_QUOTE ++ [NL]) with ([QUOTE; QUOTE] ++ [QUOTE; NL]).
  rewrite app_assoc, startswith_quotes_long; [exact Hcode|].
  rewrite length_app. destruct b; [congruence | simpl; lia].
Qed.

(** The heuristic gets the request's code back from the prompt when
    neither the language nor the code followed by two quotes contains a
    triple quote: the code has no triple quote and does not end with a
    quote. *)
Lemma extract_code_build_prompt (code : str) (lang : option str) :
  contains TRIPLE_QUOTE (format_opt lang) = false ->
  contains TRIPLE_QUOTE (code ++ [QUOTE; QUOTE]) = false ->
  extract_code (build_prompt code lang) = code.
Proof.
  intros Hlang Hcode. unfold extract_code.
  assert (Hin : contains TRIPLE_QUOTE (build_prompt code lang) = true).
  { apply contains_iff. eexists. eexists. apply build_prompt_shape. }
  rewrite Hin. unfold split. rewrite build_prompt_shape.
  rewrite split_go_first; [|discriminate|].
  - rewrite split_go_first; [reflexivity | discriminate |].
    intros a b Hab Hb. now apply (code_without_quotes code Hcode a b).
  - intros a b Hab Hb. now apply (header_without_quotes lang Hlang a b).
Qed.

(** Under the same conditions the heuristic reports, for a request's code,
    one issue for each line of that code the test accepts. *)
Lemma simulated_issues_of_request (code : str) (lang : option str) :
  contains TRIPLE_QUOTE (format_opt lang) = false ->
  contains TRIPLE_QUOTE (code ++ [QUOTE; QUOTE]) = false ->
  dict_get (lit "issues") (simulated (build_prompt code lang)) =
  Some (JArr (map issue_at (matching 1 (splitlines code)))).
Proof.
  intros Hlang Hcode. unfold simulated.
  rewrite (extract_code_build_prompt code lang Hlang Hcode), scan_issues.
  reflexivity.
Qed.


(** * Further properties *)

(** ** [call_llm] *)

(** The outcome of [call_llm], in closed form. *)
Lemma call_llm_value (w : world) (prompt : str) (st : state) :
  call_llm w prompt st =
  (Ok (provider_answer w prompt),
   {| files := files st; trace := trace st ++ call_events w prompt |}).
Proof.
  unfold provider_answer, call_events, falls_back, call_llm, post_prompt.
  unfold try_except, bind, emit, ret, raise, lift.
  destruct (llm_server w prompt) as [[| b | z | f | s | items | d]|];
    cbn [py_get files trace]; try (now rewrite <- app_assoc).
  reflexivity.
Qed.

(** X1: [call_llm] never raises and touches no file.  It returns the value
    under ["completion"] of the server's answer (the empty text when the
    key is missing), or the heuristic's text when the POST raised or the
    body is not an object; it posts once, and runs the heuristic only in
    the second case. *)
Theorem call_llm_outcome (w : world) (prompt : str) (st : state) :
  call_llm w prompt st =
  (Ok (provider_answer w prompt),
   {| files := files st; trace := trace st ++ call_events w prompt |}).
Proof. apply call_llm_value. Qed.

(** ** Which analyses the formatter accepts *)

Lemma format_issues_raise (w : world) (items : list json) :
  forallb is_dict items = false ->
  forall (n : Z) (output : str),
    rfold (format_issue w) (enumerate n items) output = Raise AttributeError.
Proof.
  induction items as [|item items IH]; intros H n output; [discriminate|].
  simpl in H. cbn [enumerate rfold].
  destruct item; cbn [format_issue py_get rbind]; try reflexivity.
  apply IH. exact H.
Qed.

Lemma format_fixes_raise (w : world) (items : list json) :
  forallb is_dict items = false ->
  forall output : str,
    rfold (format_fix w) items output = Raise AttributeError.
Proof.
  induction items as [|item items IH]; intros H output; [discriminate|].
  simpl in H. cbn [rfold].
  destruct item; cbn [format_fix py_get rbind]; try reflexivity.
  apply IH. exact H.
Qed.

Lemma forallb_is_dict_strs {A : Type} (f : A -> str) (l : list A) :
  l <> [] -> forallb is_dict (map (fun x => JStr (f x)) l) = false.
Proof. destruct l; [congruence | reflexivity]. Qed.

Lemma dict_section_raises {A : Type} (analysis : dict) (key header : str)
    (items_of : list json -> list A) (body : str -> A -> result str) (output : str) :
  dicts_or_falsy (get_or_none key analysis) = false ->
  (forall items out, forallb is_dict items = false ->
                     rfold body (items_of items) out = Raise AttributeError) ->
  exists e : exn,
    format_list_section analysis key header items_of body output = Raise e /\
    formatter_error e.
Proof.
  intros Hshape Hbody. unfold format_list_section, py_getitem, get_or_none in *.
  destruct (dict_get key analysis) as [v|]; [|discriminate].
  destruct v as [| b | z | f | s | l | d]; cbn [dicts_or_falsy] in Hshape.
  - discriminate.
  - apply negb_false_iff in Hshape. rewrite Hshape. cbn [rbind py_iter].
    exists TypeError. split; [reflexivity | now left].
  - apply negb_false_iff in Hshape. rewrite Hshape. cbn [rbind py_iter].
    exists TypeError. split; [reflexivity | now left].
  - apply negb_false_iff in Hshape. rewrite Hshape. cbn [rbind py_iter].
    exists TypeError. split; [reflexivity | now left].
  - apply negb_false_iff in Hshape. rewrite Hshape. cbn [rbind py_iter].
    rewrite Hbody.
    + exists AttributeError. split; [reflexivity | now right].
    + apply (forallb_is_dict_strs (fun c : char => [c])).
      destruct s; [discriminate | discriminate].
  - assert (Hl : truthy (JArr l) = true) by (destruct l; [discriminate | reflexivity]).
    rewrite Hl. cbn [rbind py_iter]. rewrite (Hbody l _ Hshape).
    exists AttributeError. split; [reflexivity | now right].
  - apply negb_false_iff in Hshape. rewrite Hshape. cbn [rbind py_iter].
    rewrite Hbody.
    + exists AttributeError. split; [reflexivity | now right].
    + apply (forallb_is_dict_strs (fun kv : str * json => fst kv)).
      destruct d; [discriminate | discriminate].
Qed.

Lemma bullet_section_raises (w : world) (analysis : dict) (key header : str)
    (output : str) :
  iterable_or_falsy (get_or_none key analysis) = false ->
  format_list_section analysis key header (fun l => l) (format_bullet w) output =
  Raise TypeError.
Proof.
  intros Hshape. unfold format_list_section, py_getitem, get_or_none in *.
  destruct (dict_get key analysis) as [v|]; [|discriminate].
  destruct v as [| b | z | f | s | l | d]; cbn [iterable_or_falsy] in Hshape;
    try discriminate;
    apply negb_false_iff in Hshape; rewrite Hshape; reflexivity.
Qed.

Lemma effort_step_returns (w : world) (analysis : dict) (output : str) :
  exists text : str,
    (if truthy (get_or_none (lit "effort_estimate") analysis)
     then rbind (py_getitem analysis (lit "effort_estimate"))
                (fun value => Ok (output ++ HDR_EFFORT ++
                                  py_str (py_repr w) value ++ [NL; NL]))
     else Ok output) = Ok text.
Proof.
  unfold get_or_none, py_getitem.
  destruct (dict_get (lit "effort_estimate") analysis) as [v|].
  - destruct (truthy v); eexists; reflexivity.
  - eexists; reflexivity.
Qed.

(** The formatter raises on every analysis that is not well shaped, and
    what it raises is a [TypeError] or an [AttributeError]. *)
Lemma ill_shaped_raises (w : world) (analysis : dict) :
  well_shaped analysis = false ->
  exists e : exn, format_analysis w analysis = Raise e /\ formatter_error e.
Proof.
  unfold well_shaped, format_analysis. intros H.
  destruct (dicts_or_falsy (get_or_none (lit "issues") analysis)) eqn:Hi.
  2:{ match goal with
      | |- context [format_list_section analysis (lit "issues") ?h ?io ?b ?out] =>
          destruct (dict_section_raises analysis (lit "issues") h io b out Hi)
            as [e [He Herr]];
            [intros items o Hitems; apply (format_issues_raise w items Hitems)|]
      end.
      rewrite He. exists e. split; [reflexivity | exact Herr]. }
  match goal with
  | |- context [format_list_section analysis (lit "issues") ?h ?io ?b ?out] =>
      destruct (dict_section_ok analysis (lit "issues") h io b out Hi) as [o1 H1];
        [intros items o Hitems; apply (format_issues_ok w items Hitems)|]
  end.
  rewrite H1. cbn [rbind].
  destruct (iterable_or_falsy (get_or_none (lit "suggestions") analysis)) eqn:Hs.
  2:{ rewrite (bullet_section_raises w analysis _ _ o1 Hs).
      exists TypeError. split; [reflexivity | now left]. }
  destruct (bullet_section_ok w analysis (lit "suggestions") HDR_SUGGESTIONS o1 Hs)
    as [o2 H2].
  rewrite H2. cbn [rbind].
  destruct (dicts_or_falsy (get_or_none (lit "automatic_fixes") analysis)) eqn:Hf.
  2:{ destruct (dict_section_raises analysis (lit "automatic_fixes") HDR_FIXES
                  (fun l => l) (format_fix w) o2 Hf) as [e [He Herr]];
        [intros items o Hitems; apply (format_fixes_raise w items Hitems)|].
      rewrite He. exists e. split; [reflexivity | exact Herr]. }
  destruct (dict_section_ok analysis (lit "automatic_fixes") HDR_FIXES (fun l => l)
              (format_fix w) o2 Hf) as [o3 H3];
    [intros items o Hitems; apply (format_fixes_ok w items Hitems)|].
  rewrite H3. cbn [rbind].
  destruct (effort_step_returns w analysis o3) as [o4 H4]. rewrite H4. cbn [rbind].
  simpl in H.
  rewrite (bullet_section_raises w analysis _ _ o4 H).
  exists TypeError. split; [reflexivity | now left].
Qed.

(** X2: the formatter returns a text exactly on the analyses whose
    ["issues"] and ["automatic_fixes"] are falsy or lists of dicts and whose
    ["suggestions"] and ["docs_updates"] are falsy or iterable; on every
    other analysis it raises a [TypeError] or an [AttributeError]. *)
Theorem formatter_returns_iff (w : world) (analysis : dict) :
  ((exists formatted : str, format_analysis w analysis = Ok formatted) <->
   well_shaped analysis = true) /\
  ((exists e : exn, format_analysis w analysis = Raise e /\ formatter_error e) <->
   well_shaped analysis = false).
Proof.
  split; split.
  - intros [formatted H]. destruct (well_shaped analysis) eqn:E; [reflexivity|].
    destruct (ill_shaped_raises w analysis E) as [e [He _]]. congruence.
  - apply well_shaped_is_formatted.
  - intros [e [He _]]. destruct (well_shaped analysis) eqn:E; [|reflexivity].
    destruct (well_shaped_is_formatted w analysis E) as [formatted H]. congruence.
  - apply ill_shaped_raises.
Qed.

Lemma formatter_returns_iff_witness :
  (exists formatted : str,
      format_analysis offline (to_dict one_issue) = Ok formatted) /\
  (exists e : exn,
      format_analysis offline [(lit "issues", JInt 5)] = Raise e /\ formatter_error e).
Proof.
  destruct (formatter_returns_iff offline (to_dict one_issue)) as [[_ Hok] _].
  destruct (formatter_returns_iff offline [(lit "issues", JInt 5)]) as [_ [_ Hbad]].
  split; [apply Hok | apply Hbad]; reflexivity.
Defined.

(** ** The formatter on any dict *)

Lemma rfold_appends {A : Type} (body : str -> A -> result str) :
  (forall out x out', body out x = Ok out' -> exists t, out' = out ++ t) ->
  forall (xs : list A) (out out' : str),
    rfold body xs out = Ok out' -> exists t, out' = out ++ t.
Proof.
  intros Hbody. induction xs as [|x xs IH]; intros out out' H.
  - injection H as <-. exists []. now rewrite app_nil_r.
  - cbn [rfold] in H. destruct (body out x) as [mid|e] eqn:E; [|discriminate].
    cbn [rbind] in H. destruct (Hbody _ _ _ E) as [t1 ->].
    destruct (IH _ _ H) as [t2 ->]. exists (t1 ++ t2). now rewrite app_assoc.
Qed.

Lemma format_issue_appends (w : world) (out : str) (x : Z * json) (out' : str) :
  format_issue w out x = Ok out' -> exists t, out' = out ++ t.
Proof.
  destruct x as [n issue]. unfold format_issue.
  destruct issue; cbn [py_get rbind]; try discriminate.
  intros H. injection H as <-. eexists. reflexivity.
Qed.

Lemma format_fix_appends (w : world) (out : str) (x : json) (out' : str) :
  format_fix w out x = Ok out' -> exists t, out' = out ++ t.
Proof.
  unfold format_fix. destruct x; cbn [py_get rbind]; try discriminate.
  intros H. injection H as <-. eexists. reflexivity.
Qed.

Lemma format_bullet_appends (w : world) (out : str) (x : json) (out' : str) :
  format_bullet w out x = Ok out' -> exists t, out' = out ++ t.
Proof.
  unfold format_bullet. intros H. injection H as <-. eexists. reflexivity.
Qed.

Lemma list_section_appends {A : Type} (analysis : dict) (key header : str)
    (items_of : list json -> list A) (body : str -> A -> result str)
    (out out' : str) :
  (forall o x o', body o x = Ok o' -> exists t, o' = o ++ t) ->
  format_list_section analysis key header items_of body out = Ok out' ->
  exists t, out' = out ++ t.
Proof.
  intros Hbody. unfold format_list_section.
  destruct (truthy (get_or_none key analysis)).
  - destruct (py_getitem analysis key) as [value|]; [|discriminate].
    cbn [rbind]. destruct (py_iter value) as [items|]; [|discriminate].
    cbn [rbind].
    destruct (rfold body (items_of items) (out ++ header)) as [mid|] eqn:E;
      [|discriminate].
    cbn [rbind]. intros H. injection H as <-.
    destruct (rfold_appends body Hbody _ _ _ E) as [t ->].
    exists (header ++ t ++ [NL]). now rewrite <- !app_assoc.
  - intros H. injection H as <-. exists []. now rewrite app_nil_r.
Qed.

Lemma list_section_skipped {A : Type} (analysis : dict) (key header : str)
    (items_of : list json -> list A) (body : str -> A -> result str) (out : str) :
  truthy (get_or_none key analysis) = false ->
  format_list_section analysis key header items_of body out = Ok out.
Proof. intros H. unfold format_list_section. now rewrite H. Qed.

(** A text the formatter returns begins with the Summary block. *)
Lemma formatted_begins (w : world) (analysis : dict) (formatted : str) :
  format_analysis w analysis = Ok formatted ->
  exists rest : str, formatted = summary_block w analysis ++ rest.
Proof.
  unfold format_analysis. fold (summary_block w analysis).
  change ([] ++ summary_block w analysis) with (summary_block w analysis).
  set (o0 := summary_block w analysis).
  destruct (format_list_section analysis (lit "issues") HDR_ISSUES (enumerate 1)
              (format_issue w) o0) as [o1|] eqn:E1; [|discriminate].
  cbn [rbind].
  destruct (format_list_section analysis (lit "suggestions") HDR_SUGGESTIONS
              (fun l => l) (format_bullet w) o1) as [o2|] eqn:E2; [|discriminate].
  cbn [rbind].
  destruct (format_list_section analysis (lit "automatic_fixes") HDR_FIXES
              (fun l => l) (format_fix w) o2) as [o3|] eqn:E3; [|discriminate].
  cbn [rbind].
  apply list_section_appends in E1 as [t1 ->]; [|apply format_issue_appends].
  apply list_section_appends in E2 as [t2 ->]; [|apply format_bullet_appends].
  apply list_section_appends in E3 as [t3 ->]; [|apply format_fix_appends].
  destruct (truthy (get_or_none (lit "effort_estimate") analysis)).
  - destruct (py_getitem analysis (lit "effort_estimate")) as [value|];
      [|discriminate].
    cbn [rbind].
    match goal with
    | |- context [format_list_section analysis (lit "docs_updates") ?h ?io ?b ?o] =>
        destruct (format_list_section analysis (lit "docs_updates") h io b o)
          as [o5|] eqn:E5; [|discriminate]
    end.
    cbn [rbind]. intros H. injection H as <-.
    apply list_section_appends in E5 as [t5 ->]; [|apply format_bullet_appends].
    eexists. rewrite <- !app_assoc. reflexivity.
  - cbn [rbind].
    match goal with
    | |- context [format_list_section analysis (lit "docs_updates") ?h ?io ?b ?o] =>
        destruct (format_list_section analysis (lit "docs_updates") h io b o)
          as [o5|] eqn:E5; [|discriminate]
    end.
    cbn [rbind]. intros H. injection H as <-.
    apply list_section_appends in E5 as [t5 ->]; [|apply format_bullet_appends].
    eexists. rewrite <- !app_assoc. reflexivity.
Qed.

(** The Summary header has a character outside Latin-1, so no text the
    formatter returns is within the range of the PDF font. *)
Lemma formatted_not_latin1 (w : world) (analysis : dict) (formatted : str) :
  format_analysis w analysis = Ok formatted -> latin1 formatted = false.
Proof.
  intros H. destruct (formatted_begins w analysis formatted H) as [rest ->].
  unfold summary_block, latin1. rewrite <- app_assoc, forallb_app. reflexivity.
Qed.

(** X12: whatever dict the formatter is given, a text it returns begins
    with the Summary block (the header, the text of the summary or nothing
    when the key is missing, a blank line); and the text is that block
    alone when the five other keys are missing or hold falsy values. *)
Theorem summary_comes_first (w : world) (analysis : dict) :
  (forall formatted : str,
      format_analysis w analysis = Ok formatted ->
      exists rest : str, formatted = summary_block w analysis ++ rest) /\
  (truthy (get_or_none (lit "issues") analysis) = false ->
   truthy (get_or_none (lit "suggestions") analysis) = false ->
   truthy (get_or_none (lit "automatic_fixes") analysis) = false ->
   truthy (get_or_none (lit "effort_estimate") analysis) = false ->
   truthy (get_or_none (lit "docs_updates") analysis) = false ->
   format_analysis w analysis = Ok (summary_block w analysis)).
Proof.
  split.
  - intros formatted. apply formatted_begins.
  - intros Hi Hs Hf He Hd. unfold format_analysis.
    repeat (rewrite list_section_skipped by assumption; cbn [rbind]).
    rewrite He. cbn [rbind].
    repeat (rewrite list_section_skipped by assumption; cbn [rbind]).
    reflexivity.
Qed.

Lemma summary_comes_first_witness :
  (exists rest : str,
      document one_issue = summary_block offline (to_dict one_issue) ++ rest) /\
  format_analysis offline [(lit "issues", JArr []); (lit "effort_estimate", JNull)] =
    Ok (HDR_SUMMARY ++ [NL; NL]).
Proof.
  split.
  - destruct (summary_comes_first offline (to_dict one_issue)) as [Hfirst _].
    apply Hfirst. reflexivity.
  - destruct (summary_comes_first offline
                [(lit "issues", JArr []); (lit "effort_estimate", JNull)])
      as [_ Honly].
    apply Honly; reflexivity.
Defined.


(** ** The handler as a whole *)

(** The handler on a request whose code is not blank: the call, then the
    formatter on the parsed answer, then the response. *)
Lemma analyze_code_unfold (w : world) (req : CodeRequest) (st : state) :
  forallb isspace (code req) = false ->
  analyze_code w req st =
  match format_analysis w (parsed_answer w req) with
  | Ok formatted => respond w req formatted (after_call w req st)
  | Raise e => (Raise e, after_call w req st)
  end.
Proof.
  intros Hcode. unfold analyze_code.
  destruct (strip (code req)) as [|c s] eqn:E.
  { apply strip_nil_iff in E. congruence. }
  unfold bind at 1. rewrite call_llm_value.
  unfold bind at 1, lift. fold (parsed_answer w req). fold (after_call w req st).
  destruct (format_analysis w (parsed_answer w req)); reflexivity.
Qed.

(** The attempt at the PDF never gives a response for a text the font does
    not cover. *)
Lemma pdf_attempt_fails (w : world) (formatted : str) (st : state) :
  latin1 formatted = false ->
  (if PDF_AVAILABLE w
   then try_except
          (render_pdf w (tmp_path w) formatted;;;
           ret (Some (FileResponse (tmp_path w) (lit "application/pdf")
                                   (lit "analysis.pdf"))))
          (fun _ => ret None)
   else ret None) st = (Ok None, after_render w formatted st).
Proof.
  intros Hfont. unfold after_render.
  destruct (PDF_AVAILABLE w); [|reflexivity].
  unfold try_except, render_pdf. rewrite Hfont. unfold bind.
  cbn [andb]. destruct (fpdf_litters w formatted); reflexivity.
Qed.

(** What the handler does once the text is there, when a file is asked
    for. *)
Lemma respond_with_file (w : world) (req : CodeRequest) (formatted : str) (st : state) :
  is_true (request_pdf req) = true ->
  latin1 formatted = false ->
  respond w req formatted st =
  if can_open w (txt_path w) then
    if encodable formatted
    then (Ok (TEXT_RESPONSE w),
          {| files := (txt_path w, TextFile formatted) :: files (after_render w formatted st);
             trace := trace (after_render w formatted st) |})
    else (Raise UnicodeEncodeError,
          {| files := (txt_path w, EmptyFile) :: files (after_render w formatted st);
             trace := trace (after_render w formatted st) |})
  else (Raise OSError, after_render w formatted st).
Proof.
  intros Hpdf Hfont. unfold respond. rewrite Hpdf.
  unfold bind at 1. rewrite (pdf_attempt_fails w formatted st Hfont).
  cbv zeta. fold (txt_path w). unfold write_file.
  destruct (can_open w (txt_path w)); [|reflexivity].
  destruct (encodable formatted); reflexivity.
Qed.

(** And when no file is asked for. *)
Lemma respond_with_json (w : world) (req : CodeRequest) (formatted : str) (st : state) :
  is_true (request_pdf req) = false ->
  respond w req formatted st =
  (if finite_json (response_content w req formatted) then
     if encodable_json (response_content w req formatted)
     then Ok (JSONResponse (response_content w req formatted))
     else Raise UnicodeEncodeError
   else Raise ValueError, st).
Proof.
  intros Hpdf. unfold respond. rewrite Hpdf.
  fold (response_content w req formatted). unfold json_response.
  destruct (finite_json (response_content w req formatted)); [|reflexivity].
  destruct (encodable_json (response_content w req formatted)); reflexivity.
Qed.

Lemma after_render_trace (w : world) (formatted : str) (st : state) :
  trace (after_render w formatted st) = trace st.
Proof.
  unfold after_render.
  destruct (PDF_AVAILABLE w && fpdf_litters w formatted); reflexivity.
Qed.

(** The response step leaves the trace as it is. *)
Lemma respond_trace (w : world) (req : CodeRequest) (analysis : dict)
    (formatted : str) (st : state) :
  format_analysis w analysis = Ok formatted ->
  trace (snd (respond w req formatted st)) = trace st.
Proof.
  intros Hfmt. destruct (is_true (request_pdf req)) eqn:Hpdf.
  - rewrite (respond_with_file w req formatted st Hpdf
               (formatted_not_latin1 w analysis formatted Hfmt)).
    destruct (can_open w (txt_path w)); [destruct (encodable formatted)|];
      cbn [snd trace]; apply after_render_trace.
  - rewrite (respond_with_json w req formatted st Hpdf). reflexivity.
Qed.



(** X4: a request whose code is not blank makes one POST with the prompt
    built from its code and language, followed by one run of the heuristic
    exactly when that call fell back; nothing else is called, whatever the
    answer is and however the request ends. *)
Theorem events_of_request (w : world) (req : CodeRequest) (st : state) :
  forallb isspace (code req) = false ->
  trace (snd (analyze_code w req st)) =
  trace st ++ call_events w (build_prompt (code req) (language req)).
Proof.
  intros Hcode. rewrite (analyze_code_unfold w req st Hcode).
  destruct (format_analysis w (parsed_answer w req)) as [formatted | e] eqn:Hfmt.
  - now rewrite (respond_trace w req _ formatted _ Hfmt).
  - reflexivity.
Qed.

Lemma events_of_request_witness :
  trace (snd (analyze_code (answering (lit "hello")) pdf_request initial)) =
    [RemoteCall (build_prompt (code pdf_request) (language pdf_request))] /\
  trace (snd (analyze_code offline ruby_request initial)) =
    [RemoteCall (build_prompt (code ruby_request) (language ruby_request));
     HeuristicCall (build_prompt (code ruby_request) (language ruby_request))].
Proof.
  split.
  - apply (events_of_request (answering (lit "hello")) pdf_request initial).
    vm_compute. reflexivity.
  - apply (events_of_request offline ruby_request initial).
    vm_compute. reflexivity.
Defined.

(** X5: no file is written unless the request asks for one: with
    [request_pdf] false or null the files are the same after the handler,
    however the request ends. *)
Theorem no_file_unless_asked (w : world) (req : CodeRequest) (st : state) :
  is_true (request_pdf req) = false ->
  files (snd (analyze_code w req st)) = files st.
Proof.
  intros Hpdf. destruct (forallb isspace (code req)) eqn:Hcode.
  - apply strip_nil_iff in Hcode. unfold analyze_code. now rewrite Hcode.
  - rewrite (analyze_code_unfold w req st Hcode).
    destruct (format_analysis w (parsed_answer w req)) as [formatted | e];
      [|reflexivity].
    now rewrite (respond_with_json w req formatted _ Hpdf).
Qed.

Lemma no_file_unless_asked_witness :
  files (snd (analyze_code offline ruby_request initial)) = [].
Proof.
  apply (no_file_unless_asked offline ruby_request initial). reflexivity.
Defined.

(** X6: the handler never serves a PDF.  Every text of the formatter starts
    with the Summary header, which has a character outside Latin-1, and the
    font set on line 184 has Latin-1 only; so when the handler returns a
    response it is a JSON response (no file asked for) or the text file
    [analysis.txt] (a file asked for), and the handler leaves no rendered
    PDF behind that was not there before. *)
Theorem pdf_is_never_served (w : world) (req : CodeRequest) (st : state)
    (resp : response) (st' : state) :
  analyze_code w req st = (Ok resp, st') ->
  ((exists content : json, resp = JSONResponse content) /\
   is_true (request_pdf req) = false \/
   resp = TEXT_RESPONSE w /\ is_true (request_pdf req) = true) /\
  forall (path rendered : str),
    In (path, PdfFile rendered) (files st') -> In (path, PdfFile rendered) (files st).
Proof.
  intros H. destruct (forallb isspace (code req)) eqn:Hcode.
  { apply strip_nil_iff in Hcode. unfold analyze_code in H. rewrite Hcode in H.
    discriminate. }
  rewrite (analyze_code_unfold w req st Hcode) in H.
  destruct (format_analysis w (parsed_answer w req)) as [formatted | e] eqn:Hfmt;
    [|discriminate].
  assert (Hlitter : forall path rendered,
             In (path, PdfFile rendered)
                (files (after_render w formatted (after_call w req st))) ->
             In (path, PdfFile rendered) (files st)).
  { intros path rendered. unfold after_render.
    destruct (PDF_AVAILABLE w && fpdf_litters w formatted); cbn [files after_call].
    - intros [Hin | Hin]; [discriminate | exact Hin].
    - trivial. }
  destruct (is_true (request_pdf req)) eqn:Hpdf.
  - rewrite (respond_with_file w req formatted _ Hpdf
               (formatted_not_latin1 w _ formatted Hfmt)) in H.
    destruct (can_open w (txt_path w)); [|discriminate].
    destruct (encodable formatted); [|discriminate].
    injection H as <- <-. split; [right; now split|].
    intros path rendered [Hin | Hin]; [discriminate | now apply Hlitter].
  - rewrite (respond_with_json w req formatted _ Hpdf) in H.
    destruct (finite_json (response_content w req formatted)); [|discriminate].
    destruct (encodable_json (response_content w req formatted)); [|discriminate].
    injection H as <- <-. split; [left; split; [eexists|]; reflexivity|].
    trivial.
Qed.

Lemma pdf_is_never_served_witness :
  fst (serve (responding (JObj [(lit "completion", JStr (lit "hello"))])) pdf_request) =
    Ok (FileResponse (lit "/tmp/analysis_4242.txt") (lit "text/plain")
                     (lit "analysis.txt")) /\
  forall (path rendered : str),
    ~ In (path, PdfFile rendered)
         (files (snd (serve (responding (JObj [(lit "completion", JStr (lit "hello"))]))
                            pdf_request))).
Proof.
  destruct (pdf_is_never_served
              (responding (JObj [(lit "completion", JStr (lit "hello"))]))
              pdf_request initial
              (FileResponse (lit "/tmp/analysis_4242.txt") (lit "text/plain")
                            (lit "analysis.txt"))
              {| files := [(lit "/tmp/analysis_4242.txt",
                            TextFile (HDR_SUMMARY ++ lit "hello" ++ [NL; NL]));
                           (lit "/tmp/analysis_4242.pdf", EmptyFile)];
                 trace := [RemoteCall (build_prompt (code pdf_request)
                                                    (language pdf_request))] |})
    as [_ Hfiles].
  - vm_compute. reflexivity.
  - split; [vm_compute; reflexivity|].
    intros path rendered Hin. apply (Hfiles path rendered).
    vm_compute in Hin. vm_compute. exact Hin.
Defined.

(** ** The heuristic scan, in general *)

Lemma matching_lower (lines : list str) :
  forall k : Z, Forall (fun n => (k <= n)%Z) (matching k lines).
Proof.
  induction lines as [|line lines IH]; intros k; [constructor|].
  rewrite matching_cons.
  assert (Hrest : Forall (fun n => (k <= n)%Z) (matching (k + 1) lines)).
  { eapply Forall_impl; [|apply IH]. intros n Hn. simpl in Hn. lia. }
  destruct (zero_division line); [constructor; [lia | exact Hrest] | exact Hrest].
Qed.

Lemma matching_sorted (lines : list str) :
  forall k : Z, StronglySorted Z.lt (matching k lines).
Proof.
  induction lines as [|line lines IH]; intros k; [constructor|].
  rewrite matching_cons. destruct (zero_division line); [|apply IH].
  constructor; [apply IH|].
  eapply Forall_impl; [|apply (matching_lower lines (k + 1))].
  intros n Hn. simpl in Hn. lia.
Qed.

Lemma matching_in (lines : list str) :
  forall (k n : Z),
    In n (matching k lines) <->
    exists (i : nat) (line : str),
      n = (k + Z.of_nat i)%Z /\ nth_error lines i = Some line /\
      zero_division line = true.
Proof.
  induction lines as [|l lines IH]; intros k n.
  - split; [intros [] | intros [i [line [_ [H _]]]]; destruct i; discriminate].
  - rewrite matching_cons. split.
    + intros H.
      assert (Hlater : In n (matching (k + 1) lines) ->
                       exists (i : nat) (line : str),
                         n = (k + Z.of_nat i)%Z /\
                         nth_error (l :: lines) i = Some line /\
                         zero_division line = true).
      { intros Hin. apply IH in Hin as [i [line [Hn [Hnth Hz]]]].
        exists (S i), line. split; [lia | split; assumption]. }
      destruct (zero_division l) eqn:E; [|now apply Hlater].
      destruct H as [H | H]; [|now apply Hlater].
      exists O, l. split; [simpl; lia | split; [reflexivity | exact E]].
    + intros [i [line [Hn [Hnth Hz]]]]. destruct i as [|i].
      * simpl in Hnth. injection Hnth as ->. rewrite Hz. left. simpl in Hn. lia.
      * assert (Hin : In n (matching (k + 1) lines)).
        { apply IH. exists i, line. split; [lia | split; assumption]. }
        destruct (zero_division l); [right|]; exact Hin.
Qed.

Lemma matching_length (lines : list str) :
  forall k : Z, (length (matching k lines) <= length lines)%nat.
Proof.
  induction lines as [|line lines IH]; intros k; [reflexivity|].
  rewrite matching_cons. specialize (IH (k + 1)%Z).
  destruct (zero_division line); simpl; lia.
Qed.

(** X7: the heuristic's three lists go together: for every code there are
    as many suggestions and as many fixes as issues, every suggestion is
    the one fixed sentence and every fix the one canned patch, and there
    are at most as many issues as lines. *)
Theorem findings_go_together (code : str) :
  length (f_suggestions (scan code)) = length (f_issues (scan code)) /\
  length (f_auto_fixes (scan code)) = length (f_issues (scan code)) /\
  (length (f_issues (scan code)) <= length (splitlines code))%nat /\
  Forall (eq the_suggestion) (f_suggestions (scan code)) /\
  Forall (eq the_fix) (f_auto_fixes (scan code)).
Proof.
  unfold scan. rewrite scan_fold. cbn [f_issues f_suggestions f_auto_fixes no_findings app].
  rewrite !length_map. repeat split.
  - apply matching_length.
  - apply Forall_forall. intros x Hx. apply in_map_iff in Hx as [n [Hn _]]. now symmetry.
  - apply Forall_forall. intros x Hx. apply in_map_iff in Hx as [n [Hn _]]. now symmetry.
Qed.

(** X8: for every code the issues are those of the matching lines and no
    others: the reported line numbers are strictly increasing, and a number
    is reported exactly when the line with that 1-based number passes the
    test of line 103. *)
Theorem issues_are_the_matching_lines (code : str) :
  exists numbers : list Z,
    f_issues (scan code) = map issue_at numbers /\
    StronglySorted Z.lt numbers /\
    forall n : Z,
      In n numbers <->
      exists (i : nat) (line : str),
        n = (Z.of_nat i + 1)%Z /\ nth_error (splitlines code) i = Some line /\
        zero_division line = true.
Proof.
  exists (matching 1 (splitlines code)). split; [apply scan_issues|].
  split; [apply matching_sorted|].
  intros n. rewrite matching_in. split; intros [i [line [Hn H]]];
    exists i, line; (split; [lia | exact H]).
Qed.

(** ** The test of line 103, in words *)

Lemma filter_split {A : Type} (p : A -> bool) (l : list A) :
  forall (x : list A) (c : A) (y : list A),
    filter p l = x ++ c :: y ->
    exists a b, l = a ++ c :: b /\ filter p a = x /\ filter p b = y.
Proof.
  induction l as [|h t IH]; intros x c y H.
  - destruct x; discriminate.
  - simpl in H. destruct (p h) eqn:E.
    + destruct x as [|h' x].
      * injection H as -> Ht. exists [], t. repeat split. exact Ht.
      * injection H as -> Ht. destruct (IH x c y Ht) as [a [b [-> [Ha Hb]]]].
        exists (h' :: a), b. repeat split; [|exact Hb]. simpl. now rewrite E, Ha.
    + destruct (IH x c y H) as [a [b [-> [Ha Hb]]]].
      exists (h :: a), b. repeat split; [|exact Hb]. simpl. now rewrite E.
Qed.

Lemma filter_nil_spaces (s : str) :
  filter (fun c => negb (c =? SPACE)) s = [] <-> forallb (N.eqb SPACE) s = true.
Proof.
  induction s as [|c s IH]; [split; reflexivity|].
  cbn [filter forallb]. rewrite (N.eqb_sym SPACE c).
  destruct (c =? SPACE); cbn [negb andb].
  - exact IH.
  - split; discriminate.
Qed.

(** X9: a line passes the test of line 103 exactly when it holds a slash,
    then nothing but spaces (possibly none), then a zero.  The first half
    of the test adds nothing to the second, and what follows the zero does
    not matter. *)
Theorem zero_division_in_words (line : str) :
  zero_division line = true <->
  exists before spaces after : str,
    line = before ++ [SLASH] ++ spaces ++ [ZERO] ++ after /\
    forallb (N.eqb SPACE) spaces = true.
Proof.
  rewrite zero_division_alt, replace_space, contains_iff. split.
  - intros [x [y H]]. change (lit "/0" ++ y) with (SLASH :: ZERO :: y) in H.
    destruct (filter_split _ line x SLASH (ZERO :: y) H) as [a [rest [-> [_ Hrest]]]].
    destruct (filter_split _ rest [] ZERO y Hrest) as [spaces [b [-> [Hspaces _]]]].
    exists a, spaces, b. split; [reflexivity|]. now apply filter_nil_spaces.
  - intros [a [spaces [b [-> Hspaces]]]]. apply filter_nil_spaces in Hspaces.
    exists (filter (fun c => negb (c =? SPACE)) a),
           (filter (fun c => negb (c =? SPACE)) b).
    rewrite !filter_app. cbv beta in Hspaces. setoid_rewrite Hspaces. reflexivity.
Qed.

Lemma zero_division_in_words_witness :
  zero_division (lit "rate = total /  0.5") = true.
Proof.
  apply (zero_division_in_words (lit "rate = total /  0.5")).
  exists (lit "rate = total "), (lit "  "), (lit ".5").
  split; reflexivity.
Defined.

(** ** What the heuristic extracts from a prompt, in general *)

(** A text that contains [sep] splits at the first occurrence. *)
Lemma first_occurrence (sep : str) (s : str) :
  contains sep s = true ->
  exists pre tail : str, s = pre ++ sep ++ tail /\ first_at sep pre tail.
Proof.
  induction s as [|c s IH]; intros H.
  - cbn [contains] in H. rewrite orb_false_r in H.
    apply startswith_iff in H as [t Ht].
    exists [], t. split; [exact Ht|].
    intros a b Hab Hb. destruct a; destruct b; try discriminate. congruence.
  - cbn [contains] in H. destruct (startswith sep (c :: s)) eqn:E.
    + apply startswith_iff in E as [t Ht]. exists [], t. split; [exact Ht|].
      intros a b Hab Hb. destruct a; destruct b; try discriminate. congruence.
    + simpl in H. destruct (IH H) as [pre [tail [-> Hfirst]]].
      exists (c :: pre), tail. split; [reflexivity|].
      intros a b Hab Hb. destruct a as [|x a].
      * simpl in Hab. subst b. exact E.
      * injection Hab as _ Hab. now apply (Hfirst a b).
Qed.

(** The extracted text is the code up to the first triple quote of the
    code followed by the closing delimiter. *)
Lemma extract_first_piece (code : str) (lang : option str) (pre tail : str) :
  contains TRIPLE_QUOTE (format_opt lang) = false ->
  code ++ TRIPLE_QUOTE ++ [NL] = pre ++ TRIPLE_QUOTE ++ tail ->
  first_at TRIPLE_QUOTE pre tail ->
  extract_code (build_prompt code lang) = pre.
Proof.
  intros Hlang Hsplit Hfirst. unfold extract_code.
  assert (Hin : contains TRIPLE_QUOTE (build_prompt code lang) = true).
  { apply contains_iff. eexists. eexists. apply build_prompt_shape. }
  rewrite Hin. unfold split. rewrite build_prompt_shape.
  rewrite split_go_first; [|discriminate|].
  - rewrite Hsplit, split_go_first; [reflexivity | discriminate | exact Hfirst].
  - intros a b Hab Hb. now apply (header_without_quotes lang Hlang a b).
Qed.

Lemma closing_delimiter_split (code pre tail : str) :
  code ++ TRIPLE_QUOTE ++ [NL] = pre ++ TRIPLE_QUOTE ++ tail ->
  first_at TRIPLE_QUOTE pre tail ->
  exists rest : str, code = pre ++ rest.
Proof.
  intros Hsplit Hfirst. apply app_eq_app in Hsplit as [l [[Hc _] | [Hp Ht]]].
  - now exists l.
  - destruct l as [|x l].
    + exists []. now rewrite Hp, !app_nil_r.
    + assert (E : startswith TRIPLE_QUOTE ((x :: l) ++ TRIPLE_QUOTE ++ tail) = false).
      { apply (Hfirst code (x :: l)); [exact Hp | discriminate]. }
      rewrite <- Ht in E. discriminate.
Qed.

(** X10: when the language holds no triple quote, the text the heuristic
    scans is always a beginning of the request's code: it can stop early,
    it never holds anything that is not in the code. *)
Theorem extraction_is_a_prefix (code : str) (lang : option str) :
  contains TRIPLE_QUOTE (format_opt lang) = false ->
  exists rest : str, code = extract_code (build_prompt code lang) ++ rest.
Proof.
  intros Hlang.
  assert (Hin : contains TRIPLE_QUOTE (code ++ TRIPLE_QUOTE ++ [NL]) = true).
  { apply contains_iff. now exists code, [NL]. }
  destruct (first_occurrence _ _ Hin) as [pre [tail [Hsplit Hfirst]]].
  rewrite (extract_first_piece code lang pre tail Hlang Hsplit Hfirst).
  apply (closing_delimiter_split code pre tail Hsplit Hfirst).
Qed.

Lemma extraction_is_a_prefix_witness :
  exists rest : str,
    docstring_code =
    extract_code (build_prompt docstring_code (Some (lit "python"))) ++ rest.
Proof.
  apply (extraction_is_a_prefix docstring_code (Some (lit "python"))).
  vm_compute. reflexivity.
Defined.

Lemma no_quotes_from_first_at (code : str) :
  (forall a b : str, code = a ++ b -> b <> [] ->
                     startswith TRIPLE_QUOTE (b ++ [QUOTE; QUOTE]) = false) ->
  contains TRIPLE_QUOTE (code ++ [QUOTE; QUOTE]) = false.
Proof.
  induction code as [|c code IH]; intros H; [reflexivity|].
  change ((c :: code) ++ [QUOTE; QUOTE]) with (c :: (code ++ [QUOTE; QUOTE])).
  cbn [contains]. apply orb_false_iff. split.
  - apply (H [] (c :: code)); [reflexivity | discriminate].
  - apply IH. intros a b Hab Hb. apply (H (c :: a) b); [now rewrite Hab | exact Hb].
Qed.

(** X11: when the language holds no triple quote, the heuristic scans
    exactly the request's code if and only if the code holds no triple
    quote and does not end with a quote (no triple quote in the code
    followed by two quotes). *)
Theorem extraction_is_exact_iff (code : str) (lang : option str) :
  contains TRIPLE_QUOTE (format_opt lang) = false ->
  (extract_code (build_prompt code lang) = code <->
   contains TRIPLE_QUOTE (code ++ [QUOTE; QUOTE]) = false).
Proof.
  intros Hlang. split; [|apply (extract_code_build_prompt code lang Hlang)].
  intros Hexact.
  assert (Hin : contains TRIPLE_QUOTE (code ++ TRIPLE_QUOTE ++ [NL]) = true).
  { apply contains_iff. now exists code, [NL]. }
  destruct (first_occurrence _ _ Hin) as [pre [tail [Hsplit Hfirst]]].
  rewrite (extract_first_piece code lang pre tail Hlang Hsplit Hfirst) in Hexact.
  subst pre. apply app_inv_head in Hsplit.
  unfold TRIPLE_QUOTE in Hsplit. injection Hsplit as Htail. subst tail.
  apply no_quotes_from_first_at. intros a b Hab Hb.
  pose proof (Hfirst a b Hab Hb) as E.
  change (TRIPLE_QUOTE ++ [NL]) with ([QUOTE; QUOTE] ++ [QUOTE; NL]) in E.
  rewrite app_assoc, startswith_quotes_long in E; [exact E|].
  rewrite length_app. destruct b; [congruence | simpl; lia].
Qed.

Lemma extraction_is_exact_iff_witness :
  extract_code (build_prompt (code ruby_request) (language ruby_request)) =
    code ruby_request /\
  contains TRIPLE_QUOTE (docstring_code ++ [QUOTE; QUOTE]) = true.
Proof.
  split.
  - apply (extraction_is_exact_iff (code ruby_request) (language ruby_request));
      vm_compute; reflexivity.
  - vm_compute. reflexivity.
Defined.
(** ** Answers the parser wraps, answers it keeps *)

Lemma parse_unaccepted (w : world) (answer : json) (lang : option str) :
  accepted_answer w answer = false ->
  parse_response w answer lang = wrap_raw answer lang.
Proof.
  intros H. unfold parse_response.
  destruct answer as [| b | z | f | s | items | d]; try reflexivity.
  unfold accepted_answer in H.
  destruct (json_loads w s) as [v|] eqn:Hv.
  - destruct v as [| b | z | f | s' | items | d];
      try (unfold parse_try, py_json_loads; rewrite Hv; reflexivity).
    rewrite (parse_try_dict w s lang d Hv).
    destruct (dict_get (lit "metadata") d) as [[| b | z | f | s' | items | md]|];
      try reflexivity; discriminate.
  - unfold parse_try, py_json_loads. now rewrite Hv.
Qed.

Lemma format_wrap_raw (w : world) (answer : json) (lang : option str) :
  format_analysis w (wrap_raw answer lang) =
  Ok (HDR_SUMMARY ++ py_str (py_repr w) answer ++ [NL; NL]).
Proof.
  reflexivity.
Qed.

(** The handler on an answer the parser wraps. *)
Lemma wrapped_response (w : world) (req : CodeRequest) (st : state) (answer : json) :
  forallb isspace (code req) = false ->
  is_true (request_pdf req) = false ->
  provider_answer w (build_prompt (code req) (language req)) = answer ->
  accepted_answer w answer = false ->
  response_content w req (HDR_SUMMARY ++ py_str (py_repr w) answer ++ [NL; NL]) =
    JObj [(lit "formatted_analysis",
           JStr (HDR_SUMMARY ++ py_str (py_repr w) answer ++ [NL; NL]));
          (lit "raw", JObj (wrap_raw answer (language req)))] /\
  analyze_code w req st =
  respond w req (HDR_SUMMARY ++ py_str (py_repr w) answer ++ [NL; NL])
          (after_call w req st).
Proof.
  intros Hcode Hpdf Hanswer Hwrap.
  assert (Hparsed : parsed_answer w req = wrap_raw answer (language req)).
  { unfold parsed_answer. rewrite Hanswer. now apply parse_unaccepted. }
  split; [unfold response_content; now rewrite Hparsed|].
  rewrite (analyze_code_unfold w req st Hcode).
  now rewrite Hparsed, format_wrap_raw.
Qed.



(** With a lone surrogate in the request's language the wrapper cannot be
    serialised, and the same answer gives a 500. *)
Example missing_completion_with_surrogate_language :
  fst (analyze_code (responding (JObj [(lit "response", JStr (lit "fine"))]))
         {| code := lit "x"; language := Some [0xD800]; request_pdf := None |}
         initial) = Raise UnicodeEncodeError.
Proof. vm_compute. reflexivity. Qed.

(** X14: when the server answers with an object that has no
    ["completion"] key, the heuristic does not run: the answer counts as
    the empty text, which does not decode, so the caller gets a JSON
    response with an empty summary, and the formatted text is the Summary
    header followed by two line feeds.  The request's language, which the
    wrapper carries, must have no lone surrogate. *)
Theorem missing_completion_is_empty (w : world) (req : CodeRequest) (st : state)
    (body : dict) :
  forallb isspace (code req) = false ->
  is_true (request_pdf req) = false ->
  encodable_language (language req) = true ->
  llm_server w (build_prompt (code req) (language req)) = Some (JObj body) ->
  dict_get (lit "completion") body = None ->
  json_loads w [] = None ->
  analyze_code w req st =
  (Ok (JSONResponse
         (JObj [(lit "formatted_analysis", JStr (HDR_SUMMARY ++ [NL; NL]));
                (lit "raw", JObj (wrap_raw (JStr []) (language req)))])),
   {| files := files st;
      trace := trace st ++ [RemoteCall (build_prompt (code req) (language req))] |}).
Proof.
  intros Hcode Hpdf Hlang Hserver Hkey Hempty.
  destruct (wrapped_response w req st (JStr []) Hcode Hpdf) as [Hcontent ->].
  - unfold provider_answer. now rewrite Hserver, Hkey.
  - unfold accepted_answer. now rewrite Hempty.
  - rewrite (respond_with_json w req _ _ Hpdf), Hcontent.
    cbn [py_str app].
    assert (Hfinite :
              finite_json
                (JObj [(lit "formatted_analysis", JStr (HDR_SUMMARY ++ [NL; NL]));
                       (lit "raw", JObj (wrap_raw (JStr []) (language req)))]) = true).
    { destruct (language req); reflexivity. }
    assert (Hencodable :
              encodable_json
                (JObj [(lit "formatted_analysis", JStr (HDR_SUMMARY ++ [NL; NL]));
                       (lit "raw", JObj (wrap_raw (JStr []) (language req)))]) = true).
    { unfold encodable_language in Hlang.
      destruct (language req) as [l|]; [|reflexivity].
      unfold wrap_raw, language_value. cbn [encodable_json forallb fst snd].
      rewrite Hlang. reflexivity. }
    rewrite Hfinite, Hencodable.
    unfold after_call, call_events, falls_back. now rewrite Hserver.
Qed.

Lemma missing_completion_is_empty_witness :
  analyze_code (responding (JObj [(lit "response", JStr (lit "fine"))]))
               ruby_request initial =
  (Ok (JSONResponse
         (JObj [(lit "formatted_analysis", JStr (HDR_SUMMARY ++ [NL; NL]));
                (lit "raw", JObj (wrap_raw (JStr []) (Some (lit "ruby"))))])),
   {| files := [];
      trace := [RemoteCall (build_prompt (code ruby_request) (language ruby_request))] |}).
Proof.
  apply (missing_completion_is_empty
           (responding (JObj [(lit "response", JStr (lit "fine"))]))
           ruby_request initial [(lit "response", JStr (lit "fine"))]);
    vm_compute; reflexivity.
Defined.

Lemma str_eqb_eq (a b : str) : str_eqb a b = true <-> a = b.
Proof.
  revert b. induction a as [|x a IH]; intros [|y b]; simpl; split;
    try discriminate; try reflexivity.
  - intros H. apply andb_true_iff in H as [Hx Hab].
    apply N.eqb_eq in Hx. apply IH in Hab. now subst.
  - intros H. injection H as -> ->. now rewrite N.eqb_refl, str_eqb_refl.
Qed.

Lemma dict_get_set_other (k k' : str) (v : json) (d : dict) :
  k <> k' -> dict_get k (dict_set k' v d) = dict_get k d.
Proof.
  intros Hk.
  assert (E : str_eqb k k' = false).
  { destruct (str_eqb k k') eqn:E; [|reflexivity]. apply str_eqb_eq in E. congruence. }
  induction d as [|[k0 v0] d IH]; simpl.
  - now rewrite E.
  - destruct (str_eqb k' k0) eqn:E0; simpl.
    + apply str_eqb_eq in E0. subst k0. now rewrite E.
    + now rewrite IH.
Qed.

Lemma dict_get_setdefault_other (k k' : str) (v : json) (d : dict) :
  k <> k' -> dict_get k (dict_setdefault k' v d) = dict_get k d.
Proof.
  intros Hk. unfold dict_setdefault.
  destruct (dict_get k' d); [reflexivity | now apply dict_get_set_other].
Qed.

(** X15: an answer the parser accepts (a text that decodes to an object
    whose ["metadata"] is missing or an object) is kept as it is: every key
    other than ["metadata"] has the decoded value, every key of the
    metadata other than ["language"] has the decoded value, and the
    language is the decoded one when there is one and the request's
    otherwise. *)
Theorem accepted_answer_is_kept (w : world) (answer : json) (lang : option str) :
  accepted_answer w answer = true ->
  let decoded := decoded_dict w answer in
  let parsed := parse_response w answer lang in
  (forall k : str, k <> lit "metadata" -> dict_get k parsed = dict_get k decoded) /\
  (forall k : str,
      k <> lit "language" ->
      nested_get (lit "metadata") k parsed = nested_get (lit "metadata") k decoded) /\
  nested_get (lit "metadata") (lit "language") parsed =
  Some (match nested_get (lit "metadata") (lit "language") decoded with
        | Some l => l
        | None => language_value lang
        end).
Proof.
  intros Hacc decoded parsed. subst decoded parsed.
  unfold accepted_answer, decoded_dict in *.
  destruct answer as [| b | z | f | s | items | d0]; try discriminate.
  destruct (json_loads w s) as [[| b | z | f | s' | items | d]|] eqn:Hv;
    try discriminate.
  unfold parse_response. rewrite (parse_try_dict w s lang d Hv).
  unfold nested_get.
  destruct (dict_get (lit "metadata") d) as [[| b | z | f | s' | items | md]|] eqn:Hmd;
    try discriminate.
  - repeat split.
    + intros k Hk.
      rewrite dict_get_set_other, dict_get_setdefault_other by exact Hk. reflexivity.
    + intros k Hk. rewrite dict_get_set.
      now apply dict_get_setdefault_other.
    + rewrite dict_get_set. apply dict_get_setdefault.
  - repeat split.
    + intros k Hk.
      rewrite dict_get_set_other, dict_get_setdefault_other by exact Hk. reflexivity.
    + intros k Hk. rewrite dict_get_set.
      rewrite dict_get_setdefault_other by exact Hk. reflexivity.
    + rewrite dict_get_set. reflexivity.
Qed.

Lemma accepted_answer_is_kept_witness :
  let parsed :=
    parse_response (answering answer_with_metadata) (JStr answer_with_metadata)
                   (Some (lit "ruby")) in
  dict_get (lit "extra") parsed = Some (JInt 1) /\
  nested_get (lit "metadata") (lit "tool") parsed = Some (JStr (lit "x")) /\
  nested_get (lit "metadata") (lit "language") parsed = Some (JStr (lit "ruby")).
Proof.
  destruct (accepted_answer_is_kept (answering answer_with_metadata)
              (JStr answer_with_metadata) (Some (lit "ruby")))
    as [Hkeys [Hmeta Hlang]].
  - vm_compute. reflexivity.
  - split; [|split].
    + rewrite Hkeys; [vm_compute; reflexivity | vm_compute; discriminate].
    + rewrite Hmeta; [vm_compute; reflexivity | vm_compute; discriminate].
    + rewrite Hlang. vm_compute. reflexivity.
Defined.

(** ** The path of the text file *)

Lemma startswith_long (p x y : str) :
  (length p <= length x)%nat -> startswith p (x ++ y) = startswith p x.
Proof.
  revert x. induction p as [|c p IH]; intros x H; [reflexivity|].
  destruct x as [|d x]; [simpl in H; lia|].
  cbn [app startswith]. rewrite IH; [reflexivity | simpl in H; lia].
Qed.

Lemma startswith_other (p x : str) (c : char) (y : str) :
  ~ In c p -> startswith p (x ++ c :: y) = startswith p x.
Proof.
  revert x. induction p as [|d p IH]; intros x Hc; [reflexivity|].
  destruct x as [|e x].
  - cbn [app startswith].
    assert (E : (d =? c) = false) by (apply N.eqb_neq; intros ->; apply Hc; now left).
    now rewrite E.
  - cbn [app startswith]. rewrite IH; [reflexivity|].
    intros H. apply Hc. now right.
Qed.

Lemma contains_other (p x : str) (c : char) (y : str) :
  p <> [] -> ~ In c p ->
  contains p (x ++ c :: y) = contains p x || contains p y.
Proof.
  intros Hp Hc. induction x as [|a x IH].
  - pose proof (startswith_other p [] c y Hc) as E. cbn [app] in E.
    cbn [app contains]. rewrite E.
    destruct p; [congruence | reflexivity].
  - change ((a :: x) ++ c :: y) with (a :: (x ++ c :: y)).
    cbn [contains]. rewrite IH.
    change (a :: (x ++ c :: y)) with ((a :: x) ++ c :: y).
    rewrite (startswith_other p (a :: x) c y Hc). now rewrite orb_assoc.
Qed.

Lemma replace_go_skip (old new : str) (p : str) :
  forall rest : str,
    replace_go old new (length p) (p ++ rest) = replace_go old new O rest.
Proof.
  induction p as [|c p IH]; intros rest; [reflexivity|]. simpl. apply IH.
Qed.

(** A replacement leaves the text before the first occurrence as it is. *)
Lemma replace_go_first (old new : str) (pre : str) :
  forall tail : str,
    old <> [] ->
    first_at old pre tail ->
    replace_go old new O (pre ++ old ++ tail) =
    pre ++ new ++ replace_go old new O tail.
Proof.
  induction pre as [|c pre IH]; intros tail Hold Hfirst.
  - destruct old as [|s old]; [congruence|].
    change ([] ++ (s :: old) ++ tail) with (s :: (old ++ tail)).
    cbn [replace_go].
    assert (E : startswith (s :: old) (s :: old ++ tail) = true).
    { apply startswith_iff. now exists tail. }
    rewrite E. cbn [length pred app]. now rewrite replace_go_skip.
  - change ((c :: pre) ++ old ++ tail) with (c :: (pre ++ old ++ tail)).
    cbn [replace_go].
    assert (E : startswith old (c :: pre ++ old ++ tail) = false).
    { apply (Hfirst [] (c :: pre)); [reflexivity | discriminate]. }
    rewrite E, IH; [reflexivity | exact Hold |].
    intros a b Hab Hb. apply (Hfirst (c :: a) b); [now rewrite Hab | exact Hb].
Qed.

Lemma digits_without_dot (d : Decimal.uint) :
  Forall (fun c => c <> DOT) (lit (NilEmpty.string_of_uint d)).
Proof.
  induction d; cbn [NilEmpty.string_of_uint lit list_ascii_of_string map];
    constructor; try assumption; vm_compute; discriminate.
Qed.

Lemma str_of_int_without_dot (z : Z) :
  Forall (fun c => c <> DOT) (str_of_int z).
Proof.
  unfold str_of_int, NilZero.string_of_int, NilZero.string_of_uint.
  destruct (Z.to_int z) as [d | d].
  - destruct d; try apply digits_without_dot. repeat constructor. discriminate.
  - change (lit (String "-" ?s)) with (45 :: lit s).
    constructor; [discriminate|].
    destruct d; try apply digits_without_dot. repeat constructor. discriminate.
Qed.

Lemma no_extension_after_digits (x : str) :
  Forall (fun c => c <> DOT) x ->
  contains (lit ".pdf") (x ++ lit ".pd") = false.
Proof.
  induction 1 as [|c x Hc _ IH]; [reflexivity|].
  change ((c :: x) ++ lit ".pd") with (c :: (x ++ lit ".pd")).
  cbn [contains]. rewrite IH, orb_false_r.
  change (lit ".pdf") with [DOT; 112; 100; 102]. cbn [startswith].
  assert (E : (DOT =? c) = false) by (apply N.eqb_neq; congruence).
  now rewrite E.
Qed.

Lemma file_name_without_extension (z : Z) :
  contains (lit ".pdf") ((lit "analysis_" ++ str_of_int z) ++ lit ".pd") = false.
Proof.
  rewrite <- app_assoc.
  change (lit "analysis_" ++ str_of_int z ++ lit ".pd")
    with (lit "analysis" ++ 95 :: (str_of_int z ++ lit ".pd")).
  rewrite contains_other.
  - rewrite (no_extension_after_digits _ (str_of_int_without_dot z)). reflexivity.
  - discriminate.
  - vm_compute. intuition discriminate.
Qed.

Lemma endswith_char (c : char) (a : str) :
  endswith [c] a = true -> exists a' : str, a = a' ++ [c].
Proof.
  unfold endswith. intros H. apply startswith_iff in H as [t Ht].
  exists (rev t). rewrite <- (rev_involutive a), Ht. reflexivity.
Qed.

(** The path [os.path.join] builds from a directory and a file name that
    starts with [analysis_]: the name alone, or a text, a slash, the name. *)
Lemma path_join_shape (dir rest : str) :
  path_join dir (lit "analysis_" ++ rest) = lit "analysis_" ++ rest \/
  exists x : str,
    path_join dir (lit "analysis_" ++ rest) = x ++ 47 :: (lit "analysis_" ++ rest) /\
    (dir = x \/ dir = x ++ [47]).
Proof.
  unfold path_join.
  change (startswith (lit "/") (lit "analysis_" ++ rest)) with false. cbv iota.
  destruct dir as [|c dir]; [now left|]. right.
  destruct (endswith (lit "/") (c :: dir)) eqn:E.
  - apply endswith_char in E as [x Hx]. exists x. rewrite Hx.
    split; [now rewrite <- app_assoc | now right].
  - exists (c :: dir). split; [reflexivity | now left].
Qed.

Lemma stem_without_extension (dir : str) (z : Z) :
  contains (lit ".pdf") dir = false ->
  contains (lit ".pdf") (path_join dir (lit "analysis_" ++ str_of_int z) ++ lit ".pd") = false.
Proof.
  intros Hdir.
  destruct (path_join_shape dir (str_of_int z)) as [-> | [x [-> Hx]]].
  - apply file_name_without_extension.
  - rewrite <- app_assoc.
    change ((47 :: (lit "analysis_" ++ str_of_int z)) ++ lit ".pd")
      with (47 :: ((lit "analysis_" ++ str_of_int z) ++ lit ".pd")).
    rewrite contains_other; [| discriminate | vm_compute; intuition discriminate].
    rewrite file_name_without_extension, orb_false_r.
    destruct Hx as [-> | ->]; [exact Hdir|].
    rewrite contains_other in Hdir; [| discriminate | vm_compute; intuition discriminate].
    now apply orb_false_iff in Hdir.
Qed.

Lemma path_join_extension (dir rest ext : str) :
  path_join dir (lit "analysis_" ++ rest ++ ext) =
  path_join dir (lit "analysis_" ++ rest) ++ ext.
Proof.
  unfold path_join.
  change (startswith (lit "/") (lit "analysis_" ++ rest ++ ext)) with false.
  change (startswith (lit "/") (lit "analysis_" ++ rest)) with false. cbv iota.
  destruct dir as [|c dir].
  - now rewrite <- app_assoc.
  - destruct (endswith (lit "/") (c :: dir)); now rewrite <- !app_assoc.
Qed.

(** When the temporary directory's path holds no [.pdf], the path of the
    text file is the PDF file's path with the extension changed. *)
Lemma text_file_beside_pdf (w : world) :
  contains (lit ".pdf") (gettempdir w) = false ->
  txt_path w =
  path_join (gettempdir w) (lit "analysis_" ++ str_of_int (getpid w) ++ lit ".txt").
Proof.
  intros Hdir. unfold txt_path, tmp_path, replace.
  rewrite !path_join_extension.
  set (stem := path_join (gettempdir w) (lit "analysis_" ++ str_of_int (getpid w))).
  rewrite <- (app_nil_r (lit ".pdf")) at 2.
  rewrite replace_go_first; [now rewrite app_nil_r | discriminate |].
  intros a b Hab Hb. rewrite app_nil_r.
  pose proof (stem_without_extension (gettempdir w) (getpid w) Hdir) as Hstem.
  fold stem in Hstem. rewrite Hab, <- app_assoc in Hstem.
  apply contains_false_startswith in Hstem.
  change (lit ".pdf") with (lit ".pd" ++ [102]) at 2.
  rewrite app_assoc, startswith_long; [exact Hstem|].
  rewrite length_app. destruct b; [congruence | simpl; lia].
Qed.

(** With a [.pdf] in the directory's own path the replacement changes the
    directory too. *)
Example text_file_elsewhere :
  replace (lit ".pdf") (lit ".txt")
          (path_join (lit "/srv/out.pdf.d") (lit "analysis_7.pdf")) =
  lit "/srv/out.txt.d/analysis_7.txt".
Proof. reflexivity. Qed.

Lemma read_file_other (path other : str) (data : file_data)
    (fs : list (str * file_data)) :
  path <> other -> read_file path ((other, data) :: fs) = read_file path fs.
Proof.
  intros H. cbn [read_file].
  destruct (str_eqb path other) eqn:E; [|reflexivity].
  apply str_eqb_eq in E. congruence.
Qed.

(** X16: when a file is asked for, the formatter has returned a text with
    no lone surrogate, the temporary directory's path holds no [.pdf] and
    [analysis_<pid>.txt] in that directory can be opened for writing, the
    response names that file, as [text/plain] and [analysis.txt], and the
    file holds the formatted text; whatever the PDF library did, no path
    other than this one and the PDF's own is touched. *)
Theorem text_fallback_location (w : world) (req : CodeRequest) (st : state)
    (formatted : str) :
  forallb isspace (code req) = false ->
  is_true (request_pdf req) = true ->
  format_analysis w (parsed_answer w req) = Ok formatted ->
  contains (lit ".pdf") (gettempdir w) = false ->
  let txt_file :=
    path_join (gettempdir w) (lit "analysis_" ++ str_of_int (getpid w) ++ lit ".txt") in
  can_open w txt_file = true ->
  encodable formatted = true ->
  exists st' : state,
    analyze_code w req st =
      (Ok (FileResponse txt_file (lit "text/plain") (lit "analysis.txt")), st') /\
    read_file txt_file (files st') = Some (TextFile formatted) /\
    forall path : str,
      path <> txt_file -> path <> tmp_path w ->
      read_file path (files st') = read_file path (files st).
Proof.
  intros Hcode Hpdf Hfmt Hdir txt_file. subst txt_file.
  rewrite <- (text_file_beside_pdf w Hdir). intros Hopen Henc.
  rewrite (analyze_code_unfold w req st Hcode), Hfmt.
  rewrite (respond_with_file w req formatted _ Hpdf
             (formatted_not_latin1 w _ formatted Hfmt)), Hopen, Henc.
  eexists. split; [reflexivity|]. cbn [files].
  split; [apply read_file_written|].
  intros path Htxt Htmp. rewrite (read_file_other path _ _ _ Htxt).
  unfold after_render.
  destruct (PDF_AVAILABLE w && fpdf_litters w formatted); cbn [files after_call].
  - now apply read_file_other.
  - reflexivity.
Qed.

Lemma text_fallback_location_witness :
  exists st' : state,
    analyze_code (responding (JObj [(lit "completion", JStr (lit "hello"))]))
                 pdf_request initial =
      (Ok (FileResponse (lit "/tmp/analysis_4242.txt") (lit "text/plain")
                        (lit "analysis.txt")), st') /\
    read_file (lit "/tmp/analysis_4242.txt") (files st') =
      Some (TextFile (HDR_SUMMARY ++ lit "hello" ++ [NL; NL])).
Proof.
  destruct (text_fallback_location
              (responding (JObj [(lit "completion", JStr (lit "hello"))]))
              pdf_request initial (HDR_SUMMARY ++ lit "hello" ++ [NL; NL]))
    as [st' [Hresp [Hfile _]]]; [vm_compute; reflexivity ..|].
  exists st'. split; [exact Hresp | exact Hfile].
Defined.

(** X17: the heuristic never makes a request fail: when the call to the
    server fell back, the code is not blank and the decoder gives back the
    heuristic's dict from its text, the status is 200 for every code and
    language; when a file is asked for this needs the text file to be one
    that can be opened. *)
Theorem heuristic_never_fails (w : world) (req : CodeRequest) (st : state) :
  forallb isspace (code req) = false ->
  falls_back w (build_prompt (code req) (language req)) = true ->
  json_loads w (simulate_analysis w (build_prompt (code req) (language req))) =
    Some (JObj (simulated (build_prompt (code req) (language req)))) ->
  (is_true (request_pdf req) = true -> can_open w (txt_path w) = true) ->
  exists (resp : response) (st' : state),
    analyze_code w req st = (Ok resp, st') /\
    http_status (fst (analyze_code w req st)) = 200%Z.
Proof.
  intros Hcode Hfall Hloads Hopen.
  rewrite (analyze_code_unfold w req st Hcode).
  assert (Hparsed : parsed_answer w req =
                    simulated (build_prompt (code req) (language req))).
  { unfold parsed_answer, provider_answer. unfold falls_back in Hfall.
    destruct (llm_server w (build_prompt (code req) (language req)))
      as [[| b | z | f | s | items | d]|];
      try discriminate; now apply parse_simulated. }
  pose proof (simulated_is_formatted w (build_prompt (code req) (language req))) as Hfmt.
  rewrite <- Hparsed in Hfmt. rewrite Hfmt.
  set (formatted := document (simulated_result
                                (extract_code (build_prompt (code req) (language req))))) in *.
  destruct (is_true (request_pdf req)) eqn:Hpdf.
  - rewrite (respond_with_file w req formatted _ Hpdf
               (formatted_not_latin1 w _ formatted Hfmt)).
    rewrite (Hopen eq_refl). unfold formatted.
    rewrite simulated_document_encodable.
    eexists. eexists. split; reflexivity.
  - rewrite (respond_with_json w req formatted _ Hpdf).
    destruct (simulated_serialisable (build_prompt (code req) (language req)))
      as [Hfinite Hencodable].
    assert (Hf : finite_json (response_content w req formatted) = true).
    { unfold response_content. rewrite Hparsed.
      cbn [finite_json forallb snd] in *. now rewrite Hfinite. }
    assert (He : encodable_json (response_content w req formatted) = true).
    { unfold response_content. rewrite Hparsed.
      cbn [encodable_json forallb fst snd] in *. unfold formatted.
      rewrite simulated_document_encodable, Hencodable. reflexivity. }
    rewrite Hf, He. eexists. eexists. split; reflexivity.
Qed.

Lemma heuristic_never_fails_witness :
  exists (resp : response) (st' : state),
    analyze_code offline
      {| code := docstring_code; language := None; request_pdf := Some true |}
      initial = (Ok resp, st') /\
    http_status
      (fst (analyze_code offline
              {| code := docstring_code; language := None; request_pdf := Some true |}
              initial)) = 200%Z.
Proof.
  apply (heuristic_never_fails offline
           {| code := docstring_code; language := None; request_pdf := Some true |}
           initial);
    vm_compute; reflexivity.
Defined.

(** ** The lines of a beginning of the code *)

(** A line that passes the test still passes it with more text after it. *)
Lemma zero_division_extends (line more : str) :
  zero_division line = true -> zero_division (line ++ more) = true.
Proof.
  intros H. rewrite zero_division_alt, replace_space in H.
  rewrite zero_division_alt, replace_space, filter_app.
  apply contains_iff in H as [a [b Hab]]. apply contains_iff.
  exists a, (b ++ filter (fun c => negb (c =? SPACE)) more).
  transitivity ((a ++ lit "/0" ++ b) ++ filter (fun c => negb (c =? SPACE)) more).
  - f_equal. exact Hab.
  - now rewrite <- !app_assoc.
Qed.

(** A line under way is the beginning of the first line given back. *)
Lemma splitlines_go_pending (s : str) :
  forall cur : str,
    cur <> [] ->
    exists (more : str) (ls : list str), splitlines_go cur s = (rev cur ++ more) :: ls.
Proof.
  induction s as [|c s IH]; intros cur Hcur.
  - destruct cur as [|x cur]; [congruence|].
    exists [], []. cbn [splitlines_go]. now rewrite app_nil_r.
  - cbn [splitlines_go]. destruct (islinebreak c).
    + eexists [], _. rewrite app_nil_r. reflexivity.
    + destruct (IH (c :: cur)) as [more [ls H]]; [discriminate|].
      exists (c :: more), ls. rewrite H. cbn [rev]. now rewrite <- app_assoc.
Qed.

(** The lines of a beginning of a text are, in order, beginnings of the
    lines of the text. *)
Lemma splitlines_go_beginning (rest : str) (n : nat) :
  forall (pre cur : str) (i : nat) (line : str),
    (length pre <= n)%nat ->
    nth_error (splitlines_go cur pre) i = Some line ->
    exists more : str,
      nth_error (splitlines_go cur (pre ++ rest)) i = Some (line ++ more).
Proof.
  induction n as [|n IH]; intros pre cur i line Hlen H.
  - destruct pre as [|c pre]; [|simpl in Hlen; lia].
    cbn [splitlines_go app] in *. destruct cur as [|x cur]; [destruct i; discriminate|].
    destruct i as [|i]; [|destruct i; discriminate].
    injection H as <-.
    destruct (splitlines_go_pending rest (x :: cur)) as [more [ls ->]]; [discriminate|].
    now exists more.
  - destruct pre as [|c pre].
    + apply (IH [] cur); [simpl; lia | exact H].
    + simpl in Hlen. cbn [splitlines_go app] in *.
      destruct (islinebreak c).
      * destruct i as [|i].
        -- injection H as <-. exists []. now rewrite app_nil_r.
        -- cbn [nth_error] in *. destruct pre as [|d pre].
           ++ destruct i; discriminate.
           ++ cbn [app]. simpl in Hlen.
              destruct ((c =? CR) && (d =? NL)).
              ** apply (IH pre []); [lia | exact H].
              ** apply (IH (d :: pre) []); [simpl; lia | exact H].
      * apply (IH pre (c :: cur)); [lia | exact H].
Qed.

(** A line number found in a beginning of a text is found in the text. *)
Lemma matching_beginning (pre rest : str) (k n : Z) :
  In n (matching k (splitlines pre)) -> In n (matching k (splitlines (pre ++ rest))).
Proof.
  rewrite !matching_in. intros [i [line [Hn [Hnth Hz]]]].
  destruct (splitlines_go_beginning rest (length pre) pre [] i line (le_n _) Hnth)
    as [more Hmore].
  exists i, (line ++ more). split; [exact Hn|]. split; [exact Hmore|].
  now apply zero_division_extends.
Qed.

(** What the heuristic scans when the language is clean: a beginning of
    the code. *)
Lemma scanned_beginning (code : str) (lang : option str) :
  contains TRIPLE_QUOTE (format_opt lang) = false ->
  exists rest : str, code = extract_code (build_prompt code lang) ++ rest.
Proof.
  intros Hlang.
  assert (Hin : contains TRIPLE_QUOTE (code ++ TRIPLE_QUOTE ++ [NL]) = true).
  { apply contains_iff. now exists code, [NL]. }
  destruct (first_occurrence _ _ Hin) as [pre [tail [Hsplit Hfirst]]].
  rewrite (extract_first_piece code lang pre tail Hlang Hsplit Hfirst).
  apply (closing_delimiter_split code pre tail Hsplit Hfirst).
Qed.

Lemma documented_lines_agree (lines : list str) :
  forallb (fun l => negb (documented_pattern l)) lines =
  forallb (fun l => negb (zero_division l)) lines.
Proof.
  induction lines as [|l ls IH]; [reflexivity|].
  simpl. now rewrite IH, documented_pattern_agrees.
Qed.

(** X18: with a language that holds no triple quote the heuristic raises
    no false alarm: for every code none of whose lines matches the pattern
    (neither [" / 0"] in the line nor ["/0"] once its spaces are removed),
    triple quotes in the code or not, the heuristic's [issues] for the
    prompt built from the code is the empty list and its [summary] ends
    with the no-issues sentence. *)
Theorem clean_language_no_false_alarm (code : str) (lang : option str) :
  contains TRIPLE_QUOTE (format_opt lang) = false ->
  forallb (fun l => negb (documented_pattern l)) (splitlines code) = true ->
  dict_get (lit "issues") (simulated (build_prompt code lang)) = Some (JArr []) /\
  exists beginning : str,
    dict_get (lit "summary") (simulated (build_prompt code lang)) =
    Some (JStr (beginning ++ NO_ISSUES_SENTENCE)).
Proof.
  intros Hlang Hcode.
  destruct (scanned_beginning code lang Hlang) as [rest Hrest].
  rewrite documented_lines_agree in Hcode.
  pose proof (matching_none _ 1%Z Hcode) as Hnone.
  assert (Hscan : matching 1 (splitlines (extract_code (build_prompt code lang))) = []).
  { destruct (matching 1 (splitlines (extract_code (build_prompt code lang))))
      as [|n ns] eqn:E; [reflexivity|].
    assert (Hin : In n (n :: ns)) by now left.
    rewrite <- E in Hin. apply (matching_beginning _ rest) in Hin.
    rewrite <- Hrest, Hnone in Hin. destruct Hin. }
  unfold simulated. rewrite scan_issues, Hscan.
  split; [reflexivity|]. exists SUMMARY_BASE. reflexivity.
Qed.

Lemma clean_language_no_false_alarm_witness :
  dict_get (lit "issues")
    (simulated (build_prompt (lit "s = " ++ TRIPLE_QUOTE ++ lit "doc" ++ TRIPLE_QUOTE ++
                              [NL] ++ lit "x = 1")
                             (Some (lit "python")))) = Some (JArr []).
Proof.
  apply (clean_language_no_false_alarm
           (lit "s = " ++ TRIPLE_QUOTE ++ lit "doc" ++ TRIPLE_QUOTE ++ [NL] ++ lit "x = 1")
           (Some (lit "python")));
    vm_compute; reflexivity.
Defined.

(** X19: with a language that holds no triple quote every issue the
    heuristic reports is about the request's code: its line number is the
    1-based number of a line of the code that passes the test of line 103.
    The heuristic can miss lines of the code, it does not report a line
    that is not there. *)
Theorem clean_language_reports_code_lines (code : str) (lang : option str) :
  contains TRIPLE_QUOTE (format_opt lang) = false ->
  exists numbers : list Z,
    dict_get (lit "issues") (simulated (build_prompt code lang)) =
      Some (JArr (map issue_at numbers)) /\
    forall n : Z,
      In n numbers ->
      exists (i : nat) (line : str),
        n = (Z.of_nat i + 1)%Z /\ nth_error (splitlines code) i = Some line /\
        zero_division line = true.
Proof.
  intros Hlang.
  destruct (scanned_beginning code lang Hlang) as [rest Hrest].
  exists (matching 1 (splitlines (extract_code (build_prompt code lang)))).
  split.
  - unfold simulated. now rewrite scan_issues.
  - intros n Hin. apply (matching_beginning _ rest) in Hin. rewrite <- Hrest in Hin.
    apply matching_in in Hin as [i [line [Hn [Hnth Hz]]]].
    exists i, line. split; [lia | split; assumption].
Qed.

Lemma clean_language_reports_code_lines_witness :
  exists numbers : list Z,
    dict_get (lit "issues")
      (simulated (build_prompt (code ruby_request) (language ruby_request))) =
      Some (JArr (map issue_at numbers)) /\
    forall n : Z,
      In n numbers ->
      exists (i : nat) (line : str),
        n = (Z.of_nat i + 1)%Z /\
        nth_error (splitlines (code ruby_request)) i = Some line /\
        zero_division line = true.
Proof.
  apply (clean_language_reports_code_lines (code ruby_request) (language ruby_request)).
  vm_compute. reflexivity.
Defined.
